(** * NCBI nucleotide retrieval pipeline: a shallow embedding

    The program under study is the single script [s27597_2025-2.py]:
    a client class [NCBIRetriever] (methods [search] and
    [fetch_records]), the pure function [filter_records], the two
    output stages [save_csv] and [plot_lengths], and the orchestrator
    [main].

    The script is a thin layer over Biopython ([Entrez], [SeqIO]),
    pandas and matplotlib.  Everything the script itself does (control
    flow, attribute reads and writes, exception handling, argument
    computation) is defined below, line by line.  Everything it
    delegates to the Python runtime or to a library is a field of the
    record [World]; each call is written to a chronological trace of
    [event]s so that statements about "which calls were issued" and
    "which files were written" are statements about that trace. *)

From Stdlib Require Import ZArith Lia.
From stdpp Require Import base tactics option list strings sorting.

Local Open Scope string_scope.
Local Open Scope list_scope.
Local Open Scope Z_scope.

#[local] Set Warnings "-register-all".

(** ** Python values and exceptions *)

(** The exception classes the script can meet.  [KeyboardInterrupt]
    and [SystemExit] derive from [BaseException] only; all the others
    derive from [Exception]. *)
Inductive exn_class : Type :=
  | KeyboardInterrupt
  | SystemExit
  | URLError
  | HTTPError
  | OSError
  | EOFError
  | RuntimeError
  | ValueError
  | KeyError
  | IndexError
  | TypeError
  | AttributeError.

Definition is_Exception (c : exn_class) : bool :=
  match c with
  | KeyboardInterrupt | SystemExit => false
  | _ => true
  end.

Record exn : Type := Exn { exn_cls : exn_class; exn_msg : string }.

Inductive result (A : Type) : Type :=
  | Ok (a : A)
  | Raise (e : exn).
Arguments Ok {A} a.
Arguments Raise {A} e.

(** What [Entrez.read] hands back: string, integer, list and
    dictionary elements.  A dictionary keeps its items in insertion
    order, as Python does. *)
Inductive pyval : Type :=
  | PStr (s : string)
  | PInt (z : Z)
  | PList (l : list pyval)
  | PDict (d : list (string * pyval)).

Fixpoint assoc (k : string) (d : list (string * pyval)) : option pyval :=
  match d with
  | [] => None
  | (k', v) :: d' => if String.eqb k k' then Some v else assoc k d'
  end.

(** [v[0]] *)
Definition subscript_0 (v : pyval) : result pyval :=
  match v with
  | PList (x :: _) => Ok x
  | PList [] => Raise (Exn IndexError "list index out of range")
  | PStr (String c _) => Ok (PStr (String c EmptyString))
  | PStr EmptyString => Raise (Exn IndexError "string index out of range")
  | PInt _ => Raise (Exn TypeError "'int' object is not subscriptable")
  | PDict _ => Raise (Exn KeyError "0")
  end.

(** [v[key]] for a string [key] *)
Definition subscript_key (v : pyval) (key : string) : result pyval :=
  match v with
  | PDict d =>
      match assoc key d with
      | Some x => Ok x
      | None => Raise (Exn KeyError key)
      end
  | PList _ => Raise (Exn TypeError "list indices must be integers or slices, not str")
  | PStr _ => Raise (Exn TypeError "string indices must be integers, not 'str'")
  | PInt _ => Raise (Exn TypeError "'int' object is not subscriptable")
  end.

(** ** Data model *)

(** A parsed GenBank record, restricted to the three attributes the
    script reads: [r.id], [r.seq] and [r.description]. *)
Record SeqRecord : Type := mkSeqRecord {
  rec_id : string;
  rec_seq : string;
  rec_description : string
}.

(** [len(r.seq)] *)
Definition len_seq (r : SeqRecord) : Z := Z.of_nat (String.length (rec_seq r)).

(** One row of the data frame: the dictionary
    [{"accession": .., "length": .., "description": ..}]. *)
Record Row : Type := mkRow {
  row_accession : string;
  row_length : Z;
  row_description : string
}.

(** A data frame: its column labels and its rows in display order.
    The index labels are not modelled: [to_csv] is called with
    [index=False] and the plot reads two columns only. *)
Record DataFrame : Type := mkDataFrame {
  df_columns : list string;
  df_rows : list Row
}.

#[global] Instance exn_class_eq_dec : EqDecision exn_class.
Proof. solve_decision. Defined.
#[global] Instance exn_eq_dec : EqDecision exn.
Proof. solve_decision. Defined.
#[global] Instance SeqRecord_eq_dec : EqDecision SeqRecord.
Proof. solve_decision. Defined.
#[global] Instance Row_eq_dec : EqDecision Row.
Proof. solve_decision. Defined.

(** ** Calls that leave the script *)

(** A response handle: the raw text the service sent. *)
Definition handle : Type := string.

(** The pieces of an f-string handed to [print]: literal text and the
    values substituted into it. *)
Inductive piece : Type :=
  | Lit (s : string)
  | Val (v : pyval)
  | Err (e : exn).

Inductive plt_call : Type :=
  | Figure (width height : Z)
  | Plot (xs : list string) (ys : list Z) (marker : string)
  | Xticks (rotation fontsize : Z)
  | Xlabel (s : string)
  | Ylabel (s : string)
  | Title (s : string)
  | TightLayout
  | Savefig (filename : string)
  | Close.

(** One constructor per call site of the script.
    - [EvEfetchTaxonomy id]: [Entrez.efetch(db="taxonomy", id=id, retmode="xml")]
    - [EvEsearch term]: [Entrez.esearch(db="nucleotide", term=term, usehistory="y", retmax=0)]
    - [EvEfetchNucleotide retstart retmax webenv query_key]:
      [Entrez.efetch(db="nucleotide", rettype="gb", retmode="text", ...)]
    - [EvToCsv filename columns rows]: [df.to_csv(filename, index=False)] *)
Inductive event : Type :=
  | EvInput (prompt : string)
  | EvPrint (line : list piece)
  | EvEfetchTaxonomy (id : string)
  | EvEsearch (term : string)
  | EvRead (h : handle)
  | EvEfetchNucleotide (retstart retmax : Z) (webenv query_key : pyval)
  | EvParse (h : handle)
  | EvToCsv (filename : string) (columns : list string) (rows : list Row)
  | EvPlt (c : plt_call).

(** The Python runtime, the remote service and the libraries.  Every
    effectful oracle sees the trace so far, so its answer may change
    from one call to the next (a network that fails on the third
    request, say).  [DataFrame_sort_length_desc] is
    [sort_values(by="length", ascending=False)] with the default sort
    kind. *)
Record World : Type := mkWorld {
  Entrez_efetch_taxonomy : list event → string → result handle;
  Entrez_esearch : list event → string → result handle;
  Entrez_read : list event → handle → result pyval;
  Entrez_efetch_nucleotide : list event → Z → Z → pyval → pyval → result handle;
  SeqIO_parse : list event → handle → result (list SeqRecord);
  int_of_str : string → result Z;
  DataFrame_sort_length_desc : list Row → list Row;
  DataFrame_to_csv : list event → string → DataFrame → result unit;
  pyplot : list event → plt_call → result unit
}.

(** The attributes of the one [NCBIRetriever] object.  An attribute
    that was never assigned is [None]; reading it raises
    [AttributeError]. *)
Record Retriever : Type := mkRetriever {
  organism : option pyval;
  count : option Z;
  webenv : option pyval;
  query_key : option pyval
}.

Definition new_retriever : Retriever := mkRetriever None None None None.

(** The module-level fields [Entrez.email], [Entrez.api_key] and
    [Entrez.tool]. *)
Record EntrezConfig : Type := mkEntrezConfig {
  Entrez_email : option string;
  Entrez_api_key : option string;
  Entrez_tool : option string
}.

Record State : Type := mkState {
  self : Retriever;
  entrez : EntrezConfig;
  stdin : list string;
  trace : list event
}.

Definition initial_state (lines : list string) : State :=
  mkState new_retriever (mkEntrezConfig None None None) lines [].

(** ** The monad of the script: reader of the world, state, exceptions *)

Definition M (A : Type) : Type := World → State → result A * State.

#[global] Instance M_ret : MRet M := λ A a _ σ, (Ok a, σ).

#[global] Instance M_bind : MBind M := λ A B k m w σ,
  match m w σ with
  | (Ok a, σ') => k a w σ'
  | (Raise e, σ') => (Raise e, σ')
  end.

Definition raise {A} (e : exn) : M A := λ _ σ, (Raise e, σ).

Definition lift {A} (r : result A) : M A := λ _ σ, (r, σ).

(** [try: body  except Exception as e: handler e] *)
Definition try_except {A} (body : M A) (handler : exn → M A) : M A := λ w σ,
  match body w σ with
  | (Ok a, σ') => (Ok a, σ')
  | (Raise e, σ') =>
      if is_Exception (exn_cls e) then handler e w σ' else (Raise e, σ')
  end.

Definition log (ev : event) (σ : State) : State :=
  mkState (self σ) (entrez σ) (stdin σ) (trace σ ++ [ev]).

Definition set_self (f : Retriever → Retriever) : M unit := λ _ σ,
  (Ok tt, mkState (f (self σ)) (entrez σ) (stdin σ) (trace σ)).

Definition getattr (name : string) (field : Retriever → option pyval) : M pyval := λ _ σ,
  match field (self σ) with
  | Some v => (Ok v, σ)
  | None =>
      (Raise (Exn AttributeError
                ("'NCBIRetriever' object has no attribute '" +:+ name +:+ "'")), σ)
  end.

(** [print(...)] *)
Definition print (line : list piece) : M unit := λ _ σ, (Ok tt, log (EvPrint line) σ).

(** [input(prompt)]: the next line of standard input, [EOFError] when
    there is none. *)
Definition input (prompt : string) : M string := λ _ σ,
  match stdin σ with
  | line :: rest =>
      (Ok line, mkState (self σ) (entrez σ) rest (trace σ ++ [EvInput prompt]))
  | [] => (Raise (Exn EOFError "EOF when reading a line"), log (EvInput prompt) σ)
  end.

(** [int(v)] *)
Definition py_int (w : World) (v : pyval) : result Z :=
  match v with
  | PInt z => Ok z
  | PStr s => int_of_str w s
  | PList _ =>
      Raise (Exn TypeError "int() argument must be a string, a bytes-like object or a real number, not 'list'")
  | PDict _ =>
      Raise (Exn TypeError "int() argument must be a string, a bytes-like object or a real number, not 'dict'")
  end.

Definition int (v : pyval) : M Z := λ w σ, (py_int w v, σ).

(** A library call: the event is recorded, then the world answers
    from the trace as it stood before the call. *)
Definition call {A} (ev : event) (oracle : World → list event → result A) : M A :=
  λ w σ, (oracle w (trace σ), log ev σ).

(** ** class NCBIRetriever *)

(** [__init__(self, email, api_key)]: a fresh object, and the three
    module-level fields of [Entrez] are overwritten. *)
Definition NCBIRetriever (email api_key : string) : M unit := λ _ σ,
  (Ok tt,
   mkState new_retriever
     (mkEntrezConfig (Some email) (Some api_key) (Some "BioScriptEx10"))
     (stdin σ) (trace σ)).

(** The body of the [try] block of [search]. *)
Definition search_body (taxid : string) : M Z :=
  handle ← call (EvEfetchTaxonomy taxid) (λ w tr, Entrez_efetch_taxonomy w tr taxid);
  records ← call (EvRead handle) (λ w tr, Entrez_read w tr handle);
  first ← lift (subscript_0 records);
  name ← lift (subscript_key first "ScientificName");
  set_self (λ s, mkRetriever (Some name) (count s) (webenv s) (query_key s));;
  print [Lit "Organism: "; Val name];;
  let search_term := "txid" +:+ taxid +:+ "[Organism]" in
  handle ← call (EvEsearch search_term) (λ w tr, Entrez_esearch w tr search_term);
  res ← call (EvRead handle) (λ w tr, Entrez_read w tr handle);
  c ← lift (subscript_key res "Count");
  n ← int c;
  set_self (λ s, mkRetriever (organism s) (Some n) (webenv s) (query_key s));;
  we ← lift (subscript_key res "WebEnv");
  set_self (λ s, mkRetriever (organism s) (count s) (Some we) (query_key s));;
  qk ← lift (subscript_key res "QueryKey");
  set_self (λ s, mkRetriever (organism s) (count s) (webenv s) (Some qk));;
  mret n.

Definition search (taxid : string) : M Z :=
  try_except (search_body taxid)
    (λ e, print [Lit "Search error: "; Err e];; mret 0).

(** [range(start, stop, step)].  Python raises [ValueError] for a zero
    step; the script's only call passes the constant 500. *)
Definition py_range (start stop step : Z) : list Z :=
  if 0 <? step then
    (λ i : nat, start + Z.of_nat i * step) <$>
      seq 0 (Z.to_nat ((stop - start + step - 1) / step))
  else if step <? 0 then
    (λ i : nat, start + Z.of_nat i * step) <$>
      seq 0 (Z.to_nat ((start - stop - step - 1) / (- step)))
  else [].

Definition batch_size : Z := 500.

(** The [for start in range(...)] loop of [fetch_records], with the
    accumulator [all_records]. *)
Fixpoint fetch_loop (starts : list Z) (max_records : Z)
    (all_records : list SeqRecord) : M (list SeqRecord) :=
  match starts with
  | [] => mret all_records
  | start :: starts' =>
      let retmax := Z.min batch_size (max_records - start) in
      we ← getattr "webenv" webenv;
      qk ← getattr "query_key" query_key;
      handle ← call (EvEfetchNucleotide start retmax we qk)
                 (λ w tr, Entrez_efetch_nucleotide w tr start retmax we qk);
      parsed ← call (EvParse handle) (λ w tr, SeqIO_parse w tr handle);
      fetch_loop starts' max_records (all_records ++ parsed)
  end.

Definition fetch_records (max_records : Z) : M (list SeqRecord) :=
  fetch_loop (py_range 0 max_records batch_size) max_records [].

(** ** filter_records *)

(** The list comprehension
    [[r for r in records if min_len <= len(r.seq) <= max_len]]:
    the chained comparison is the conjunction of the two tests. *)
Fixpoint filter_records (records : list SeqRecord) (min_len max_len : Z)
    : list SeqRecord :=
  match records with
  | [] => []
  | r :: records' =>
      if (min_len <=? len_seq r) && (len_seq r <=? max_len)
      then r :: filter_records records' min_len max_len
      else filter_records records' min_len max_len
  end.

(** ** save_csv and plot_lengths *)

Definition to_row (r : SeqRecord) : Row :=
  {| row_accession := rec_id r;
     row_length := len_seq r;
     row_description := rec_description r |}.

(** [pd.DataFrame(data)] for a list of dictionaries that all have the
    keys accession, length, description in this order.  An empty list
    gives a frame without columns. *)
Definition pd_DataFrame (data : list Row) : DataFrame :=
  match data with
  | [] => mkDataFrame [] []
  | _ => mkDataFrame ["accession"; "length"; "description"] data
  end.

(** [df.sort_values(by="length", ascending=False)]: [KeyError] when
    the frame has no such column. *)
Definition sort_values_length_desc (df : DataFrame) : M DataFrame := λ w σ,
  if bool_decide ("length" ∈ df_columns df)
  then (Ok (mkDataFrame (df_columns df) (DataFrame_sort_length_desc w (df_rows df))), σ)
  else (Raise (Exn KeyError "length"), σ).

(** [df[name]] for the two columns the plot reads. *)
Definition column {A} (df : DataFrame) (name : string) (field : Row → A) : M (list A) :=
  λ _ σ,
  if bool_decide (name ∈ df_columns df)
  then (Ok (field <$> df_rows df), σ)
  else (Raise (Exn KeyError name), σ).

Definition save_csv (records : list SeqRecord) (filename : string) : M DataFrame :=
  let data := to_row <$> records in
  let df := pd_DataFrame data in
  df ← sort_values_length_desc df;
  call (EvToCsv filename (df_columns df) (df_rows df))
       (λ w tr, DataFrame_to_csv w tr filename df);;
  mret df.

Definition plt (c : plt_call) : M unit :=
  call (EvPlt c) (λ w tr, pyplot w tr c).

Definition plot_lengths (df : DataFrame) (png_filename : string) : M unit :=
  df_sorted ← sort_values_length_desc df;
  plt (Figure 12 6);;
  xs ← column df_sorted "accession" row_accession;
  ys ← column df_sorted "length" row_length;
  plt (Plot xs ys "o");;
  plt (Xticks 90 6);;
  plt (Xlabel "Accession");;
  plt (Ylabel "Sequence Length");;
  plt (Title "Sequence Lengths (sorted)");;
  plt TightLayout;;
  plt (Savefig png_filename);;
  plt Close.

(** ** main *)

Definition main : M unit :=
  email ← input "Enter NCBI email: ";
  api_key ← input "Enter NCBI API key: ";
  taxid ← input "Enter TaxID: ";
  min_len ← (s ← input "Min sequence length: "; int (PStr s));
  max_len ← (s ← input "Max sequence length: "; int (PStr s));
  NCBIRetriever email api_key;;
  count ← search taxid;
  if bool_decide (count = 0) then
    print [Lit "No results."]
  else
    print [Lit "Fetching up to 1000 records out of "; Val (PInt count); Lit " available..."];;
    raw_records ← fetch_records 1000;
    let filtered := filter_records raw_records min_len max_len in
    match filtered with
    | [] => print [Lit "No records match length criteria."]
    | _ =>
        let csv_name := "taxid_" +:+ taxid +:+ "_filtered.csv" in
        let png_name := "taxid_" +:+ taxid +:+ "_plot.png" in
        df ← save_csv filtered csv_name;
        plot_lengths df png_name;;
        print [Lit "Saved "; Val (PInt (Z.of_nat (length filtered))); Lit " records to "; Lit csv_name];;
        print [Lit "Plot saved as "; Lit png_name]
    end.

(** ** Observations on traces *)

(** The files a run has asked the libraries to write. *)
Definition written_file (ev : event) : option string :=
  match ev with
  | EvToCsv filename _ _ => Some filename
  | EvPlt (Savefig filename) => Some filename
  | _ => None
  end.

Definition files_written (tr : list event) : list string :=
  omap written_file tr.

(** * Definitions used by the statements *)

(** ** Filtering *)

(** The test of the comprehension, as a proposition. *)
Definition in_bounds (min_len max_len : Z) (r : SeqRecord) : Prop :=
  min_len ≤ len_seq r ≤ max_len.

#[global] Instance in_bounds_dec lo hi r : Decision (in_bounds lo hi r).
Proof. unfold in_bounds. apply _. Defined.

(** ** Traces *)

(** [emits P m]: whatever [m] does, it only appends events that
    satisfy [P] to the trace. *)
Definition emits {A} (P : event → Prop) (m : M A) : Prop :=
  ∀ w σ r σ', m w σ = (r, σ') →
    ∃ evs, trace σ' = trace σ ++ evs ∧ Forall P evs.

(** An event that asks for no file. *)
Definition writes_no_file (ev : event) : Prop := written_file ev = None.

(** ** Paging *)

(** The (retstart, retmax) pair of a nucleotide fetch. *)
Definition fetch_request (ev : event) : option (Z * Z) :=
  match ev with
  | EvEfetchNucleotide retstart retmax _ _ => Some (retstart, retmax)
  | _ => None
  end.

Definition fetch_requests (tr : list event) : list (Z * Z) :=
  omap fetch_request tr.

(** The paging plan as the specification words it: offsets 0, 500,
    1000, ... below [max_records], each with
    [retmax = min(500, max_records - retstart)]. *)
Definition batch_schedule (max_records : Z) : list (Z * Z) :=
  (λ k : nat, (500 * Z.of_nat k, Z.min 500 (max_records - 500 * Z.of_nat k))) <$>
    seq 0 (Z.to_nat ((max_records + 499) / 500)).

(** The request the loop of [fetch_records] issues at offset [start]. *)
Definition request_of_start (max_records start : Z) : Z * Z :=
  (start, Z.min batch_size (max_records - start)).

(** A world in which nucleotide fetches and GenBank parsing always
    answer. *)
Definition fetch_never_raises (w : World) : Prop :=
  (∀ tr retstart retmax we qk,
     ∃ h, Entrez_efetch_nucleotide w tr retstart retmax we qk = Ok h)
  ∧ (∀ tr h, ∃ parsed, SeqIO_parse w tr h = Ok parsed).

(** ** Sorting and plotting *)

(** Non-increasing by length. *)
Definition by_length_desc (r1 r2 : Row) : Prop := row_length r2 ≤ row_length r1.

#[global] Instance by_length_desc_dec r1 r2 : Decision (by_length_desc r1 r2).
Proof. unfold by_length_desc. apply _. Defined.

(** What pandas promises of [sort_values(by="length", ascending=False)]
    whatever the sort kind: the rows are rearranged, and the result is
    in non-increasing order of length.  Only the kinds "mergesort" and
    "stable" promise more; the script passes none, which selects
    "quicksort". *)
Definition sort_contract (w : World) : Prop :=
  ∀ rows,
    DataFrame_sort_length_desc w rows ≡ₚ rows
    ∧ Sorted by_length_desc (DataFrame_sort_length_desc w rows).

(** Rows of equal length appear in [output] in the order they have in
    [input]. *)
Definition keeps_tie_order (input output : list Row) : Prop :=
  ∀ k, filter (λ r, row_length r = k) output = filter (λ r, row_length r = k) input.

(** The column labels of a frame built from at least one record. *)
Definition table_columns : list string := ["accession"; "length"; "description"].

(** The calls [plot_lengths] makes to pyplot, in order, for the sorted
    rows it plots. *)
Definition plot_calls (rows : list Row) (png_filename : string) : list plt_call :=
  [ Figure 12 6;
    Plot (row_accession <$> rows) (row_length <$> rows) "o";
    Xticks 90 6;
    Xlabel "Accession";
    Ylabel "Sequence Length";
    Title "Sequence Lengths (sorted)";
    TightLayout;
    Savefig png_filename;
    Close ].

(** A list of pyplot calls made one after the other; the first one
    that raises ends the sequence. *)
Fixpoint plt_seq (cs : list plt_call) : M unit :=
  match cs with
  | [] => mret tt
  | c :: cs' => plt c;; plt_seq cs'
  end.

(** Non-increasing order on the integers. *)
Definition Z_desc (a b : Z) : Prop := b ≤ a.

(** ** The orchestrator *)

(** The five prompts of [main], in order. *)
Definition prompts : list event :=
  [ EvInput "Enter NCBI email: ";
    EvInput "Enter NCBI API key: ";
    EvInput "Enter TaxID: ";
    EvInput "Min sequence length: ";
    EvInput "Max sequence length: " ].

(** The state in which [main] calls [search]: the five answers are
    consumed and the retriever is fresh. *)
Definition state_after_inputs (σ : State) (email api_key : string)
    (rest : list string) : State :=
  mkState new_retriever
    (mkEntrezConfig (Some email) (Some api_key) (Some "BioScriptEx10"))
    rest (trace σ ++ prompts).

(** [main] from the call of [search] on. *)
Definition main_after_inputs (taxid : string) (min_len max_len : Z) : M unit :=
  count ← search taxid;
  if bool_decide (count = 0) then
    print [Lit "No results."]
  else
    print [Lit "Fetching up to 1000 records out of "; Val (PInt count); Lit " available..."];;
    raw_records ← fetch_records 1000;
    let filtered := filter_records raw_records min_len max_len in
    match filtered with
    | [] => print [Lit "No records match length criteria."]
    | _ =>
        let csv_name := "taxid_" +:+ taxid +:+ "_filtered.csv" in
        let png_name := "taxid_" +:+ taxid +:+ "_plot.png" in
        df ← save_csv filtered csv_name;
        plot_lengths df png_name;;
        print [Lit "Saved "; Val (PInt (Z.of_nat (length filtered))); Lit " records to "; Lit csv_name];;
        print [Lit "Plot saved as "; Lit png_name]
    end.

(** ** Example worlds and inputs *)

(** The decimal-digit fragment of [int()] on strings, enough for the
    example runs. *)
Definition digit_value (c : Ascii.ascii) : option Z :=
  let n := Z.of_N (Ascii.N_of_ascii c) in
  if (48 <=? n) && (n <=? 57) then Some (n - 48) else None.

Fixpoint parse_digits (acc : Z) (s : string) : option Z :=
  match s with
  | EmptyString => Some acc
  | String c s' =>
      match digit_value c with
      | Some d => parse_digits (10 * acc + d) s'
      | None => None
      end
  end.

Definition demo_int (s : string) : result Z :=
  match s with
  | EmptyString => Raise (Exn ValueError "invalid literal for int() with base 10: ''")
  | _ =>
      match parse_digits 0 s with
      | Some z => Ok z
      | None => Raise (Exn ValueError ("invalid literal for int() with base 10: '" +:+ s +:+ "'"))
      end
  end.

(** A sort by length, descending, that puts a row after the rows of
    the same length already placed.  It meets the contract of
    [sort_values], and on the four records [tie_a; tie_b; tie_c; tie_d]
    below (lengths 4, 4, 8, 8) it returns the order pandas returns when
    numpy sorts the keys with its vectorised argsort: for
    [ascending=False] pandas reverses the column to 8, 8, 4, 4, asks
    numpy for the ascending argsort and reverses the answer; numpy's
    four-key sorting network compares positions (0,1) and (2,3), then
    (0,3) and (1,2), then (0,1) and (2,3) again, and both exchanges of
    the middle step move an 8 behind a 4, which leaves each pair of equal
    keys in the opposite order.  It stands in for pandas at that input
    only. *)
Fixpoint insert_after_ties (x : Row) (l : list Row) : list Row :=
  match l with
  | [] => [x]
  | y :: l' =>
      if row_length y <? row_length x then x :: l else y :: insert_after_ties x l'
  end.

Definition sort_ties_reversed (l : list Row) : list Row :=
  foldr insert_after_ties [] l.

(** The parsed replies of the demonstration service. *)
Definition demo_taxonomy_reply : pyval :=
  PList [PDict [("TaxId", PStr "562"); ("ScientificName", PStr "Escherichia coli")]].

Definition demo_search_reply (count : string) : pyval :=
  PDict [("Count", PStr count); ("WebEnv", PStr "MCID_demo"); ("QueryKey", PStr "1")].

(** Three records of lengths 12, 3 and 8. *)
Definition demo_records : list SeqRecord :=
  [ mkSeqRecord "AB000001.1" "ACGTACGTACGT" "first record";
    mkSeqRecord "AB000002.1" "ACG" "second record";
    mkSeqRecord "AB000003.1" "ACGTACGT" "third record" ].

(** Two records of the same length 4, and two of the same length 8. *)
Definition tie_a : SeqRecord := mkSeqRecord "AB000004.1" "ACGT" "tie, first".
Definition tie_b : SeqRecord := mkSeqRecord "AB000005.1" "TTGA" "tie, second".
Definition tie_c : SeqRecord := mkSeqRecord "AB000006.1" "ACGTACGT" "tie, third".
Definition tie_d : SeqRecord := mkSeqRecord "AB000007.1" "TTGATTGA" "tie, fourth".

(** A service that knows one organism and answers the first batch
    with [demo_records]; [count] is the text of the Count field,
    [sort] the sort pandas runs, and [disk_full] makes [savefig]
    raise. *)
Definition demo_world (count : string) (sort : list Row → list Row)
    (disk_full : bool) : World :=
  {| Entrez_efetch_taxonomy := λ _ _, Ok "taxonomy";
     Entrez_esearch := λ _ _, Ok "esearch";
     Entrez_read := λ _ h,
       if String.eqb h "taxonomy" then Ok demo_taxonomy_reply
       else Ok (demo_search_reply count);
     Entrez_efetch_nucleotide := λ _ _ _ _ _, Ok "genbank";
     SeqIO_parse := λ tr _,
       match fetch_requests tr with
       | [_] => Ok demo_records
       | _ => Ok []
       end;
     int_of_str := demo_int;
     DataFrame_sort_length_desc := sort;
     DataFrame_to_csv := λ _ _ _, Ok tt;
     pyplot := λ _ c,
       match c with
       | Savefig _ =>
           if disk_full then Raise (Exn OSError "[Errno 28] No space left on device")
           else Ok tt
       | _ => Ok tt
       end |}.

(** Four instances: a stable sort, a tie-reversing sort, a full disk,
    and a search without hits. *)
Definition demo_stable : World := demo_world "3" (merge_sort by_length_desc) false.
Definition demo_unstable : World := demo_world "3" sort_ties_reversed false.
Definition demo_disk_full : World := demo_world "3" (merge_sort by_length_desc) true.
Definition demo_no_hits : World := demo_world "0" (merge_sort by_length_desc) false.

(** A retriever after a successful search. *)
Definition demo_state_searched : State :=
  mkState (mkRetriever (Some (PStr "Escherichia coli")) (Some 3)
             (Some (PStr "MCID_demo")) (Some (PStr "1")))
    (mkEntrezConfig (Some "a@b.org") (Some "k") (Some "BioScriptEx10")) [] [].

(** The five lines typed by the operator. *)
Definition demo_inputs (min_len max_len : string) : list string :=
  ["a@b.org"; "k"; "562"; min_len; max_len].

(** The frame [save_csv] builds from [demo_records] filtered to
    lengths 5..15. *)
Definition demo_table : DataFrame :=
  mkDataFrame table_columns
    [ mkRow "AB000001.1" 12 "first record"; mkRow "AB000003.1" 8 "third record" ].

(** ** Further definitions: requests, file names, more worlds *)

(** The calls that go to the remote service. *)
Definition network_request (ev : event) : option event :=
  match ev with
  | EvEfetchTaxonomy _ | EvEsearch _ | EvEfetchNucleotide _ _ _ _ => Some ev
  | _ => None
  end.

Definition network_requests (tr : list event) : list event :=
  omap network_request tr.

(** The search term [f"txid{taxid}[Organism]"]. *)
Definition search_term (taxid : string) : string :=
  "txid" +:+ taxid +:+ "[Organism]".

(** The two output file names of [main]. *)
Definition csv_name (taxid : string) : string := "taxid_" +:+ taxid +:+ "_filtered.csv".
Definition png_name (taxid : string) : string := "taxid_" +:+ taxid +:+ "_plot.png".

(** The replies a [search] must get to complete: the taxonomy record
    with the name, and the search result with Count, WebEnv and
    QueryKey; [h1] and [h2] are the two response handles. *)
Definition search_replies (w : World) (taxid : string) (σ : State)
    (name : pyval) (n : Z) (we qk : pyval) (h1 h2 : handle) : Prop :=
  ∃ records first res c,
    Entrez_efetch_taxonomy w (trace σ) taxid = Ok h1
    ∧ Entrez_read w (trace σ ++ [EvEfetchTaxonomy taxid]) h1 = Ok records
    ∧ subscript_0 records = Ok first
    ∧ subscript_key first "ScientificName" = Ok name
    ∧ Entrez_esearch w
        (trace σ ++ [EvEfetchTaxonomy taxid; EvRead h1;
                     EvPrint [Lit "Organism: "; Val name]])
        (search_term taxid) = Ok h2
    ∧ Entrez_read w
        (trace σ ++ [EvEfetchTaxonomy taxid; EvRead h1;
                     EvPrint [Lit "Organism: "; Val name];
                     EvEsearch (search_term taxid)])
        h2 = Ok res
    ∧ subscript_key res "Count" = Ok c
    ∧ py_int w c = Ok n
    ∧ subscript_key res "WebEnv" = Ok we
    ∧ subscript_key res "QueryKey" = Ok qk.

(** The state a completed [search] leaves. *)
Definition state_after_search (σ : State) (taxid : string)
    (name : pyval) (n : Z) (we qk : pyval) (h1 h2 : handle) : State :=
  mkState (mkRetriever (Some name) (Some n) (Some we) (Some qk))
    (entrez σ) (stdin σ)
    (trace σ ++ [EvEfetchTaxonomy taxid; EvRead h1;
                 EvPrint [Lit "Organism: "; Val name];
                 EvEsearch (search_term taxid); EvRead h2]).



(** The events of a complete, successful [save_csv] and [plot_lengths]
    in [main], and the two closing messages. *)
Definition output_events (taxid : string) (n : nat) (rows plotted : list Row) : list event :=
  EvToCsv (csv_name taxid) table_columns rows
  :: (EvPlt <$> plot_calls plotted (png_name taxid))
  ++ [ EvPrint [Lit "Saved "; Val (PInt (Z.of_nat n)); Lit " records to "; Lit (csv_name taxid)];
       EvPrint [Lit "Plot saved as "; Lit (png_name taxid)] ].

(** The message [main] prints before fetching. *)
Definition fetching_message (count : Z) : event :=
  EvPrint [Lit "Fetching up to 1000 records out of "; Val (PInt count); Lit " available..."].

(** An event that is a prompt of [input]. *)
Definition is_prompt (ev : event) : Prop :=
  match ev with
  | EvInput _ => True
  | _ => False
  end.

(** An event that neither asks for a file nor is a nucleotide fetch. *)
Definition quiet (ev : event) : Prop :=
  written_file ev = None ∧ fetch_request ev = None.

(** [frame m]: a run of [m] leaves the module-level [Entrez] fields
    and the unread lines of standard input as they were. *)
Definition frame {A} (m : M A) : Prop :=
  ∀ w σ r σ', m w σ = (r, σ') → entrez σ' = entrez σ ∧ stdin σ' = stdin σ.

(** Variants of a world: the nucleotide fetch, the GenBank parser or
    the search call replaced. *)
Definition with_efetch_nucleotide
    (f : list event → Z → Z → pyval → pyval → result handle) (w : World) : World :=
  {| Entrez_efetch_taxonomy := Entrez_efetch_taxonomy w;
     Entrez_esearch := Entrez_esearch w;
     Entrez_read := Entrez_read w;
     Entrez_efetch_nucleotide := f;
     SeqIO_parse := SeqIO_parse w;
     int_of_str := int_of_str w;
     DataFrame_sort_length_desc := DataFrame_sort_length_desc w;
     DataFrame_to_csv := DataFrame_to_csv w;
     pyplot := pyplot w |}.

Definition with_parse (f : list event → handle → result (list SeqRecord))
    (w : World) : World :=
  {| Entrez_efetch_taxonomy := Entrez_efetch_taxonomy w;
     Entrez_esearch := Entrez_esearch w;
     Entrez_read := Entrez_read w;
     Entrez_efetch_nucleotide := Entrez_efetch_nucleotide w;
     SeqIO_parse := f;
     int_of_str := int_of_str w;
     DataFrame_sort_length_desc := DataFrame_sort_length_desc w;
     DataFrame_to_csv := DataFrame_to_csv w;
     pyplot := pyplot w |}.

Definition with_esearch (f : list event → string → result handle) (w : World) : World :=
  {| Entrez_efetch_taxonomy := Entrez_efetch_taxonomy w;
     Entrez_esearch := f;
     Entrez_read := Entrez_read w;
     Entrez_efetch_nucleotide := Entrez_efetch_nucleotide w;
     SeqIO_parse := SeqIO_parse w;
     int_of_str := int_of_str w;
     DataFrame_sort_length_desc := DataFrame_sort_length_desc w;
     DataFrame_to_csv := DataFrame_to_csv w;
     pyplot := pyplot w |}.

(** The service drops the connection on every request past the first
    batch. *)
Definition demo_second_batch_fails : World :=
  with_efetch_nucleotide
    (λ _ retstart _ _ _,
       if retstart =? 0 then Ok "genbank"
       else Raise (Exn URLError "<urlopen error timed out>"))
    demo_stable.

(** The service answers every batch with the same three records. *)
Definition demo_same_batch : World :=
  with_parse (λ _ _, Ok demo_records) demo_stable.

(** The taxonomy lookup works, the search call fails. *)
Definition demo_esearch_down : World :=
  with_esearch (λ _ _, Raise (Exn HTTPError "HTTP Error 502: Bad Gateway")) demo_stable.

(** * Properties *)

(** ** The record filter *)

Lemma filter_records_cons_in lo hi r records :
  in_bounds lo hi r →
  filter_records (r :: records) lo hi = r :: filter_records records lo hi.
Proof.
  unfold in_bounds. intros [Hlo Hhi]. simpl.
  apply Z.leb_le in Hlo. apply Z.leb_le in Hhi. by rewrite Hlo, Hhi.
Qed.

Lemma filter_records_cons_out lo hi r records :
  ¬ in_bounds lo hi r →
  filter_records (r :: records) lo hi = filter_records records lo hi.
Proof.
  unfold in_bounds. intros Hout. simpl.
  destruct (lo <=? len_seq r) eqn:Hlo; [|done].
  destruct (len_seq r <=? hi) eqn:Hhi; [|done].
  apply Z.leb_le in Hlo. apply Z.leb_le in Hhi. lia.
Qed.

Lemma filter_records_filter records lo hi :
  filter_records records lo hi = filter (in_bounds lo hi) records.
Proof.
  induction records as [|r records IH]; [done|].
  destruct (decide (in_bounds lo hi r)) as [Hin|Hout].
  - rewrite filter_records_cons_in, filter_cons_True by done. by f_equal.
  - by rewrite filter_records_cons_out, filter_cons_False.
Qed.

(** C1. [filter_records records lo hi] is exactly the records with
    [lo <= len(r.seq) <= hi], in their original relative order: it
    equals the order-preserving filter of the input, it is a sublist of
    the input, a record is in it iff it is in the input and within the
    (inclusive) bounds, and it is the empty list exactly when no
    record is within the bounds.  The function is pure: it lives
    outside the monad [M], so it touches neither the state nor the
    trace. *)
Theorem filter_records_exact (records : list SeqRecord) (lo hi : Z) :
  filter_records records lo hi = filter (in_bounds lo hi) records
  ∧ filter_records records lo hi `sublist_of` records
  ∧ (∀ r, r ∈ filter_records records lo hi ↔ r ∈ records ∧ lo ≤ len_seq r ≤ hi)
  ∧ (filter_records records lo hi = [] ↔
     ∀ r, r ∈ records → ¬ (lo ≤ len_seq r ≤ hi)).
Proof.
  rewrite filter_records_filter. split_and!.
  - done.
  - apply sublist_filter.
  - intros r. rewrite list_elem_of_filter. unfold in_bounds. tauto.
  - split.
    + intros Hnil r Hr Hb. by eapply filter_nil_not_elem_of.
    + intros Hnone. induction records as [|r records IH]; [done|].
      rewrite filter_cons_False.
      * apply IH. intros r' Hr'. apply Hnone. by right.
      * apply Hnone. by left.
Qed.

(** ** Reasoning about runs *)

Lemma bind_unfold {A B} (m : M A) (k : A → M B) w σ :
  (m ≫= k) w σ =
  match m w σ with
  | (Ok a, σ') => k a w σ'
  | (Raise e, σ') => (Raise e, σ')
  end.
Proof. reflexivity. Qed.

Lemma bind_Ok {A B} (m : M A) (k : A → M B) w σ a σ' :
  m w σ = (Ok a, σ') → (m ≫= k) w σ = k a w σ'.
Proof. intros H. by rewrite bind_unfold, H. Qed.

Lemma bind_Raise {A B} (m : M A) (k : A → M B) w σ e σ' :
  m w σ = (Raise e, σ') → (m ≫= k) w σ = (Raise e, σ').
Proof. intros H. by rewrite bind_unfold, H. Qed.

Section emits.

Context (P : event → Prop).

Lemma emits_silent {A} (m : M A) :
  (∀ w σ, trace (m w σ).2 = trace σ) → emits P m.
Proof.
  intros Hm w σ r σ' Hrun. exists []. split; [|constructor].
  specialize (Hm w σ). rewrite Hrun in Hm. simpl in Hm.
  by rewrite app_nil_r.
Qed.

Lemma emits_ret {A} (a : A) : emits P (mret a).
Proof. by apply emits_silent. Qed.

Lemma emits_raise {A} (e : exn) : emits P (@raise A e).
Proof. by apply emits_silent. Qed.

Lemma emits_lift {A} (r : result A) : emits P (lift r).
Proof. by apply emits_silent. Qed.

Lemma emits_set_self f : emits P (set_self f).
Proof. by apply emits_silent. Qed.

Lemma emits_getattr name field : emits P (getattr name field).
Proof.
  apply emits_silent. intros w σ. unfold getattr. by destruct (field (self σ)).
Qed.

Lemma emits_int v : emits P (int v).
Proof. by apply emits_silent. Qed.

Lemma emits_NCBIRetriever email api_key : emits P (NCBIRetriever email api_key).
Proof. by apply emits_silent. Qed.

Lemma emits_call {A} ev (oracle : World → list event → result A) :
  P ev → emits P (call ev oracle).
Proof.
  intros Hev w σ r σ' Hrun. unfold call in Hrun. simplify_eq.
  exists [ev]. split; [done|]. by constructor.
Qed.

Lemma emits_print line : P (EvPrint line) → emits P (print line).
Proof.
  intros Hev w σ r σ' Hrun. unfold print in Hrun. simplify_eq.
  exists [EvPrint line]. split; [done|]. by constructor.
Qed.

Lemma emits_input prompt : P (EvInput prompt) → emits P (input prompt).
Proof.
  intros Hev w σ r σ' Hrun. unfold input in Hrun.
  exists [EvInput prompt]. split; [|by constructor].
  destruct (stdin σ); by simplify_eq.
Qed.

Lemma emits_bind {A B} (m : M A) (k : A → M B) :
  emits P m → (∀ a, emits P (k a)) → emits P (m ≫= k).
Proof.
  intros Hm Hk w σ r σ' Hrun. rewrite bind_unfold in Hrun.
  destruct (m w σ) as [[a|e] σ1] eqn:Hm1.
  - destruct (Hm _ _ _ _ Hm1) as (evs1 & Htr1 & HP1).
    destruct (Hk a _ _ _ _ Hrun) as (evs2 & Htr2 & HP2).
    exists (evs1 ++ evs2). split.
    + by rewrite Htr2, Htr1, (assoc_L (++)).
    + by apply Forall_app.
  - simplify_eq. by apply (Hm _ _ _ _ Hm1).
Qed.

Lemma emits_try_except {A} (body : M A) handler :
  emits P body → (∀ e, emits P (handler e)) → emits P (try_except body handler).
Proof.
  intros Hm Hk w σ r σ' Hrun. unfold try_except in Hrun.
  destruct (body w σ) as [[a|e] σ1] eqn:Hm1.
  - simplify_eq. by apply (Hm _ _ _ _ Hm1).
  - destruct (is_Exception (exn_cls e)).
    + destruct (Hm _ _ _ _ Hm1) as (evs1 & Htr1 & HP1).
      destruct (Hk e _ _ _ _ Hrun) as (evs2 & Htr2 & HP2).
      exists (evs1 ++ evs2). split.
      * by rewrite Htr2, Htr1, (assoc_L (++)).
      * by apply Forall_app.
    + simplify_eq. by apply (Hm _ _ _ _ Hm1).
Qed.

End emits.

Create HintDb emits discriminated.
#[global] Hint Resolve emits_ret emits_raise emits_lift emits_set_self
  emits_getattr emits_int emits_NCBIRetriever : emits.

(** Break a run into its binds, leaving one goal per call that writes
    to the trace. *)
Ltac emits_steps :=
  repeat first
    [ apply emits_bind; [|intros ?]
    | apply emits_try_except; [|intros ?]
    | solve [auto with emits]
    | apply emits_call
    | apply emits_print
    | apply emits_input ].

Lemma search_writes_no_file taxid : emits writes_no_file (search taxid).
Proof. unfold search, search_body. emits_steps; done. Qed.

Lemma Forall_writes_no_file evs :
  Forall writes_no_file evs → files_written evs = [].
Proof.
  unfold files_written, writes_no_file.
  induction 1 as [|ev evs Hev _ IH]; [done|]. simpl. by rewrite Hev.
Qed.

Lemma files_written_app tr1 tr2 :
  files_written (tr1 ++ tr2) = files_written tr1 ++ files_written tr2.
Proof. apply omap_app. Qed.

(** ** search *)

(** The handler of [search]: what the [except] clause does. *)
Lemma search_of_body_Raise w taxid σ e σ' :
  search_body taxid w σ = (Raise e, σ') →
  is_Exception (exn_cls e) = true →
  search taxid w σ = (Ok 0, log (EvPrint [Lit "Search error: "; Err e]) σ').
Proof. intros Hbody Hexc. unfold search, try_except. by rewrite Hbody, Hexc. Qed.

Lemma search_of_body_Ok w taxid σ n σ' :
  search_body taxid w σ = (Ok n, σ') → search taxid w σ = (Ok n, σ').
Proof. intros Hbody. unfold search, try_except. by rewrite Hbody. Qed.

(** A successful body went through every step, and leaves the four
    attributes assigned. *)
Lemma search_body_Ok_inv w taxid σ n σ' :
  search_body taxid w σ = (Ok n, σ') →
  ∃ h1 records first name h2 res c we qk,
    let term := "txid" +:+ taxid +:+ "[Organism]" in
    let tr1 := trace σ ++ [EvEfetchTaxonomy taxid] in
    let tr2 := tr1 ++ [EvRead h1; EvPrint [Lit "Organism: "; Val name]] in
    let tr3 := tr2 ++ [EvEsearch term] in
    Entrez_efetch_taxonomy w (trace σ) taxid = Ok h1
    ∧ Entrez_read w tr1 h1 = Ok records
    ∧ subscript_0 records = Ok first
    ∧ subscript_key first "ScientificName" = Ok name
    ∧ Entrez_esearch w tr2 term = Ok h2
    ∧ Entrez_read w tr3 h2 = Ok res
    ∧ subscript_key res "Count" = Ok c
    ∧ py_int w c = Ok n
    ∧ subscript_key res "WebEnv" = Ok we
    ∧ subscript_key res "QueryKey" = Ok qk
    ∧ σ' = mkState (mkRetriever (Some name) (Some n) (Some we) (Some qk))
             (entrez σ) (stdin σ) (tr3 ++ [EvRead h2]).
Proof.
  unfold search_body. intros Hrun.
  rewrite bind_unfold in Hrun. unfold call at 1 in Hrun.
  destruct (Entrez_efetch_taxonomy w (trace σ) taxid) as [h1|] eqn:E1; [|done].
  rewrite bind_unfold in Hrun. unfold call at 1 in Hrun. cbn [log trace] in Hrun.
  destruct (Entrez_read w (trace σ ++ [EvEfetchTaxonomy taxid]) h1)
    as [records|] eqn:E2; [|done].
  rewrite bind_unfold in Hrun. unfold lift at 1 in Hrun.
  destruct (subscript_0 records) as [first|] eqn:E3; [|done].
  rewrite bind_unfold in Hrun. unfold lift at 1 in Hrun.
  destruct (subscript_key first "ScientificName") as [name|] eqn:E4; [|done].
  rewrite bind_unfold in Hrun. unfold set_self at 1 in Hrun.
  rewrite bind_unfold in Hrun. unfold print at 1 in Hrun.
  cbn [log trace self entrez stdin organism count webenv query_key] in Hrun.
  rewrite bind_unfold in Hrun. unfold call at 1 in Hrun.
  cbn [log trace self entrez stdin] in Hrun.
  rewrite <- !(assoc_L (++)) in Hrun. cbn [app] in Hrun.
  destruct (Entrez_esearch w _ _) as [h2|] eqn:E5; [|done].
  rewrite bind_unfold in Hrun. unfold call at 1 in Hrun.
  cbn [log trace self entrez stdin] in Hrun.
  rewrite <- !(assoc_L (++)) in Hrun. cbn [app] in Hrun.
  destruct (Entrez_read w _ h2) as [res|] eqn:E6; [|done].
  rewrite bind_unfold in Hrun. unfold lift at 1 in Hrun.
  destruct (subscript_key res "Count") as [c|] eqn:E7; [|done].
  rewrite bind_unfold in Hrun. unfold log in Hrun.
  cbn [trace self entrez stdin] in Hrun.
  rewrite <- !(assoc_L (++)) in Hrun. cbn [app] in Hrun.
  unfold int at 1 in Hrun.
  destruct (py_int w c) as [n'|] eqn:E8; [|done].
  rewrite bind_unfold in Hrun. unfold set_self at 1 in Hrun.
  cbn [self entrez stdin trace organism count webenv query_key] in Hrun.
  rewrite bind_unfold in Hrun. unfold lift at 1 in Hrun.
  destruct (subscript_key res "WebEnv") as [we|] eqn:E9; [|done].
  rewrite bind_unfold in Hrun. unfold set_self at 1 in Hrun.
  cbn [self entrez stdin trace organism count webenv query_key] in Hrun.
  rewrite bind_unfold in Hrun. unfold lift at 1 in Hrun.
  destruct (subscript_key res "QueryKey") as [qk|] eqn:E10; [|done].
  rewrite bind_unfold in Hrun. unfold set_self at 1 in Hrun.
  cbn [self entrez stdin trace organism count webenv query_key] in Hrun.
  injection Hrun as -> <-.
  exists h1, records, first, name, h2, res, c, we, qk. cbn zeta.
  rewrite <- !(assoc_L (++)). cbn [app].
  by split_and!.
Qed.

(** Each primitive, run. *)
Lemma call_run {A} ev (oracle : World → list event → result A) w σ :
  call ev oracle w σ = (oracle w (trace σ), log ev σ).
Proof. reflexivity. Qed.
Lemma lift_run {A} (r : result A) w σ : lift r w σ = (r, σ).
Proof. reflexivity. Qed.
Lemma set_self_run f w σ :
  set_self f w σ = (Ok tt, mkState (f (self σ)) (entrez σ) (stdin σ) (trace σ)).
Proof. reflexivity. Qed.
Lemma print_run line w σ : print line w σ = (Ok tt, log (EvPrint line) σ).
Proof. reflexivity. Qed.
Lemma int_run v w σ : int v w σ = (py_int w v, σ).
Proof. reflexivity. Qed.
Lemma ret_run {A} (a : A) w σ : (mret a : M A) w σ = (Ok a, σ).
Proof. reflexivity. Qed.

(** Run the first statement of a sequence. *)
Ltac step_run H :=
  rewrite bind_unfold in H;
  rewrite ?call_run, ?lift_run, ?set_self_run, ?print_run, ?int_run in H;
  unfold log in H;
  cbn [trace self entrez stdin organism count webenv query_key] in H;
  rewrite <- ?(assoc_L (++)) in H; cbn [app] in H.

Ltac case_result H :=
  match type of H with
  | context [match ?x with _ => _ end] => destruct x eqn:?
  end.

(** [query_key] is the last attribute [search] assigns: a body that
    raises has not touched it. *)
Lemma search_body_Raise_query_key w taxid σ e σ' :
  search_body taxid w σ = (Raise e, σ') →
  query_key (self σ') = query_key (self σ).
Proof.
  unfold search_body. intros Hrun.
  do 4 (step_run Hrun; case_result Hrun; [|by simplify_eq]).
  do 2 step_run Hrun.
  do 4 (step_run Hrun; case_result Hrun; [|by simplify_eq]).
  step_run Hrun.
  step_run Hrun; case_result Hrun; [|by simplify_eq].
  step_run Hrun.
  step_run Hrun; case_result Hrun; [|by simplify_eq].
  step_run Hrun. done.
Qed.

(** The three failure causes the specification names, at the first
    (taxonomy) step. *)
Lemma search_body_network_failure w taxid σ e :
  Entrez_efetch_taxonomy w (trace σ) taxid = Raise e →
  search_body taxid w σ = (Raise e, log (EvEfetchTaxonomy taxid) σ).
Proof.
  intros Hnet. unfold search_body. rewrite bind_unfold. unfold call at 1.
  by rewrite Hnet.
Qed.

Lemma search_body_malformed_response w taxid σ h e :
  Entrez_efetch_taxonomy w (trace σ) taxid = Ok h →
  Entrez_read w (trace σ ++ [EvEfetchTaxonomy taxid]) h = Raise e →
  search_body taxid w σ =
    (Raise e, log (EvRead h) (log (EvEfetchTaxonomy taxid) σ)).
Proof.
  intros Hnet Hread. unfold search_body. rewrite bind_unfold. unfold call at 1.
  rewrite Hnet. rewrite bind_unfold. unfold call at 1. cbn [log trace].
  by rewrite Hread.
Qed.

Lemma search_body_unknown_id w taxid σ h :
  Entrez_efetch_taxonomy w (trace σ) taxid = Ok h →
  Entrez_read w (trace σ ++ [EvEfetchTaxonomy taxid]) h = Ok (PList []) →
  search_body taxid w σ =
    (Raise (Exn IndexError "list index out of range"),
     log (EvRead h) (log (EvEfetchTaxonomy taxid) σ)).
Proof.
  intros Hnet Hread. unfold search_body. rewrite bind_unfold. unfold call at 1.
  rewrite Hnet. rewrite bind_unfold. unfold call at 1. cbn [log trace].
  by rewrite Hread.
Qed.

Lemma search_body_Ok_intro w taxid σ name n we qk h1 h2 :
  search_replies w taxid σ name n we qk h1 h2 →
  search_body taxid w σ = (Ok n, state_after_search σ taxid name n we qk h1 h2).
Proof.
  intros (records & first & res & c & Hfetch & Hread & Hfirst & Hname
          & Hsearch & Hres & Hc & Hn & Hwe & Hqk).
  unfold search_body, state_after_search. fold (search_term taxid).
  rewrite bind_unfold, call_run, Hfetch.
  rewrite bind_unfold, call_run. cbn [log trace]. rewrite Hread.
  rewrite bind_unfold, lift_run, Hfirst.
  rewrite bind_unfold, lift_run, Hname.
  rewrite bind_unfold, set_self_run. rewrite bind_unfold, print_run.
  rewrite bind_unfold, call_run. unfold log.
  cbn [trace self entrez stdin organism count webenv query_key].
  rewrite <- !(assoc_L (++)). cbn [app]. rewrite Hsearch.
  rewrite bind_unfold, call_run. unfold log. cbn [trace self entrez stdin].
  rewrite <- !(assoc_L (++)). cbn [app]. rewrite Hres.
  rewrite bind_unfold, lift_run, Hc.
  rewrite bind_unfold, int_run, Hn.
  rewrite bind_unfold, set_self_run.
  rewrite bind_unfold, lift_run, Hwe.
  rewrite bind_unfold, set_self_run.
  rewrite bind_unfold, lift_run, Hqk.
  rewrite bind_unfold, set_self_run.
  cbn [trace self entrez stdin organism count webenv query_key]. by rewrite ret_run.
Qed.

Lemma search_body_Ok_replies w taxid σ n σ' :
  search_body taxid w σ = (Ok n, σ') →
  ∃ name we qk h1 h2,
    search_replies w taxid σ name n we qk h1 h2
    ∧ σ' = state_after_search σ taxid name n we qk h1 h2.
Proof.
  intros Hbody.
  destruct (search_body_Ok_inv _ _ _ _ _ Hbody)
    as (h1 & records & first & name & h2 & res & c & we & qk & H).
  cbn zeta in H. rewrite <- !(assoc_L (++)) in H. cbn [app] in H.
  destruct H as (H1 & H2 & H3 & H4 & H5 & H6 & H7 & H8 & H9 & H10 & ->).
  exists name, we, qk, h1, h2. split; [|done].
  exists records, first, res, c. unfold search_term. by split_and!.
Qed.

(** C6. [search] never lets an error of class [Exception] escape:
    whenever a step of the taxonomy lookup or of the history-enabled
    search raises one, [search] prints "Search error: ..." and returns
    0.  This covers a network failure, a malformed response and an
    unknown taxonomic ID (an empty result list, hence [IndexError]).
    When the service answers every step, [search] returns
    [int(res["Count"])] for the reply [res] to the esearch call, and
    the retriever holds the organism name of the taxonomy reply, that
    count, and [res["WebEnv"]] and [res["QueryKey"]]; a result of
    [search] has no other origin than these two. *)
Theorem search_catches_errors (w : World) (taxid : string) (σ : State) :
  (∀ e σ', search taxid w σ = (Raise e, σ') → is_Exception (exn_cls e) = false)
  ∧ (∀ e σ', search_body taxid w σ = (Raise e, σ') →
       is_Exception (exn_cls e) = true →
       search taxid w σ = (Ok 0, log (EvPrint [Lit "Search error: "; Err e]) σ'))
  ∧ (∀ e, is_Exception (exn_cls e) = true →
       Entrez_efetch_taxonomy w (trace σ) taxid = Raise e →
       search taxid w σ
       = (Ok 0, log (EvPrint [Lit "Search error: "; Err e])
                  (log (EvEfetchTaxonomy taxid) σ)))
  ∧ (∀ e h, is_Exception (exn_cls e) = true →
       Entrez_efetch_taxonomy w (trace σ) taxid = Ok h →
       Entrez_read w (trace σ ++ [EvEfetchTaxonomy taxid]) h = Raise e →
       search taxid w σ
       = (Ok 0, log (EvPrint [Lit "Search error: "; Err e])
                  (log (EvRead h) (log (EvEfetchTaxonomy taxid) σ))))
  ∧ (∀ h,
       Entrez_efetch_taxonomy w (trace σ) taxid = Ok h →
       Entrez_read w (trace σ ++ [EvEfetchTaxonomy taxid]) h = Ok (PList []) →
       search taxid w σ
       = (Ok 0, log (EvPrint [Lit "Search error: ";
                              Err (Exn IndexError "list index out of range")])
                  (log (EvRead h) (log (EvEfetchTaxonomy taxid) σ))))
  ∧ (∀ n σ', search_body taxid w σ = (Ok n, σ') →
       search taxid w σ = (Ok n, σ')
       ∧ ∃ name we qk h1 h2,
           search_replies w taxid σ name n we qk h1 h2
           ∧ σ' = state_after_search σ taxid name n we qk h1 h2)
  ∧ (∀ name n we qk h1 h2,
       search_replies w taxid σ name n we qk h1 h2 →
       search taxid w σ = (Ok n, state_after_search σ taxid name n we qk h1 h2))
  ∧ (∀ n σ', search taxid w σ = (Ok n, σ') →
       (∃ name we qk h1 h2,
          search_replies w taxid σ name n we qk h1 h2
          ∧ σ' = state_after_search σ taxid name n we qk h1 h2)
       ∨ (n = 0
          ∧ ∃ e σb,
              is_Exception (exn_cls e) = true
              ∧ search_body taxid w σ = (Raise e, σb)
              ∧ σ' = log (EvPrint [Lit "Search error: "; Err e]) σb)).
Proof.
  split_and!.
  - intros e σ' Hrun. unfold search, try_except in Hrun.
    destruct (search_body taxid w σ) as [[n|e0] σ0]; [done|].
    destruct (is_Exception (exn_cls e0)) eqn:Hexc; [done|]. by simplify_eq.
  - apply search_of_body_Raise.
  - intros e Hexc Hnet.
    exact (search_of_body_Raise _ _ _ _ _
             (search_body_network_failure _ _ _ _ Hnet) Hexc).
  - intros e h Hexc Hnet Hread.
    exact (search_of_body_Raise _ _ _ _ _
             (search_body_malformed_response _ _ _ _ _ Hnet Hread) Hexc).
  - intros h Hnet Hread.
    exact (search_of_body_Raise _ _ _ _ _
             (search_body_unknown_id _ _ _ _ Hnet Hread) eq_refl).
  - intros n σ' Hbody. split; [by apply search_of_body_Ok|].
    by apply search_body_Ok_replies.
  - intros name n we qk h1 h2 Hreplies.
    apply search_of_body_Ok. by apply search_body_Ok_intro.
  - intros n σ' Hrun. unfold search, try_except in Hrun.
    destruct (search_body taxid w σ) as [[n0|e] σb] eqn:Hbody.
    + simplify_eq. left. by apply search_body_Ok_replies.
    + destruct (is_Exception (exn_cls e)) eqn:Hexc; [|done].
      rewrite bind_unfold, print_run, ret_run in Hrun. simplify_eq.
      right. split; [done|]. by exists e, σb.
Qed.

(** ** fetch_records *)

Lemma getattr_Some name field w σ v :
  field (self σ) = Some v → getattr name field w σ = (Ok v, σ).
Proof. intros H. unfold getattr. by rewrite H. Qed.

Lemma getattr_None name field w σ :
  field (self σ) = None →
  getattr name field w σ =
    (Raise (Exn AttributeError
              ("'NCBIRetriever' object has no attribute '" +:+ name +:+ "'")), σ).
Proof. intros H. unfold getattr. by rewrite H. Qed.

Lemma py_range_batch_schedule max_records :
  request_of_start max_records <$> py_range 0 max_records batch_size
  = batch_schedule max_records.
Proof.
  unfold py_range, batch_schedule, batch_size.
  change (0 <? 500) with true. cbv iota. rewrite <- list_fmap_compose.
  replace (max_records - 0 + 500 - 1) with (max_records + 499) by lia.
  apply list_fmap_ext. intros _ k _. unfold request_of_start, batch_size. simpl.
  f_equal; [lia | f_equal; lia].
Qed.

Lemma fetch_loop_requests starts max_records : ∀ acc w σ r σ',
  fetch_loop starts max_records acc w σ = (r, σ') →
  ∃ evs, trace σ' = trace σ ++ evs
    ∧ self σ' = self σ
    ∧ Forall writes_no_file evs
    ∧ fetch_requests evs `prefix_of` (request_of_start max_records <$> starts)
    ∧ (∀ recs, r = Ok recs →
         fetch_requests evs = request_of_start max_records <$> starts).
Proof.
  induction starts as [|start starts IH]; intros acc w σ r σ' Hrun.
  - simpl in Hrun. rewrite ret_run in Hrun. simplify_eq.
    exists []. rewrite app_nil_r. by split_and!.
  - simpl in Hrun. rewrite bind_unfold in Hrun.
    destruct (webenv (self σ)) as [we|] eqn:Hwe.
    2:{ rewrite (getattr_None _ _ _ _ Hwe) in Hrun. simplify_eq.
        exists []. rewrite app_nil_r. split_and!; try done.
        apply prefix_nil. }
    rewrite (getattr_Some _ _ _ _ _ Hwe), bind_unfold in Hrun.
    destruct (query_key (self σ)) as [qk|] eqn:Hqk.
    2:{ rewrite (getattr_None _ _ _ _ Hqk) in Hrun. simplify_eq.
        exists []. rewrite app_nil_r. split_and!; try done.
        apply prefix_nil. }
    rewrite (getattr_Some _ _ _ _ _ Hqk) in Hrun.
    rewrite bind_unfold, call_run in Hrun.
    set (ev := EvEfetchNucleotide start
                 (Z.min batch_size (max_records - start)) we qk) in *.
    destruct (Entrez_efetch_nucleotide w (trace σ) start _ we qk) as [h|e].
    2:{ simplify_eq. exists [ev]. split_and!; try done.
        - by repeat constructor.
        - simpl. by apply prefix_cons, prefix_nil. }
    rewrite bind_unfold, call_run in Hrun.
    destruct (SeqIO_parse w (trace (log ev σ)) h) as [parsed|e].
    2:{ simplify_eq. exists [ev; EvParse h]. split_and!; try done.
        - simpl. by rewrite <- (assoc_L (++)).
        - by repeat constructor.
        - simpl. by apply prefix_cons, prefix_nil. }
    destruct (IH _ _ _ _ _ Hrun) as (evs & Htr & Hself & Hnf & Hpre & Hall).
    exists (ev :: EvParse h :: evs). split_and!.
    + rewrite Htr. simpl. by rewrite <- !(assoc_L (++)).
    + by rewrite Hself.
    + by repeat constructor.
    + simpl. by apply prefix_cons.
    + intros recs Hr. simpl. f_equal. by eapply Hall.
Qed.

Lemma fetch_loop_total w starts max_records :
  fetch_never_raises w →
  ∀ acc σ, is_Some (webenv (self σ)) → is_Some (query_key (self σ)) →
  ∃ recs σ', fetch_loop starts max_records acc w σ = (Ok recs, σ').
Proof.
  intros [Hfetch Hparse].
  induction starts as [|start starts IH]; intros acc σ [we Hwe] [qk Hqk].
  - by eexists _, _.
  - simpl. rewrite bind_unfold, (getattr_Some _ _ _ _ _ Hwe).
    rewrite bind_unfold, (getattr_Some _ _ _ _ _ Hqk).
    rewrite bind_unfold, call_run.
    destruct (Hfetch (trace σ) start
                (Z.min batch_size (max_records - start)) we qk) as [h ->].
    rewrite bind_unfold, call_run.
    match goal with |- context [SeqIO_parse w ?tr h] =>
      destruct (Hparse tr h) as [parsed ->] end.
    apply IH; simpl; eauto.
Qed.

Lemma batch_schedule_lookup max_records (k : nat) retstart retmax :
  batch_schedule max_records !! k = Some (retstart, retmax) →
  retstart = 500 * Z.of_nat k
  ∧ retmax = Z.min 500 (max_records - retstart)
  ∧ 0 < retmax.
Proof.
  unfold batch_schedule. rewrite list_lookup_fmap.
  destruct (seq 0 _ !! k) as [k'|] eqn:Hk; [|done].
  apply lookup_seq in Hk as [-> Hlt]. simpl. intros [= <- <-].
  split_and!; [done..|].
  assert (Hdiv : Z.of_nat k < (max_records + 499) / 500) by lia.
  assert (Hmul : 500 * ((max_records + 499) / 500) ≤ max_records + 499)
    by (apply Z.mul_div_le; lia).
  lia.
Qed.

(** C3. For [max_records > 0], the nucleotide fetches issued by
    [fetch_records] follow the paging plan: retstart 0, 500, 1000, ...
    with retmax = min(500, max_records - retstart).  The requests of any
    run are a prefix of the plan (a raising call ends the run), they are
    the whole plan when the run returns, and the run does return when
    no fetch or parse raises and the session tokens are set.  Every
    planned request asks for at least one record, and for
    [max_records = 1200] the plan is (0,500), (500,500), (1000,200). *)
Theorem fetch_records_pagination (w : World) (σ : State) (max_records : Z) :
  0 < max_records →
  (∃ evs, trace (fetch_records max_records w σ).2 = trace σ ++ evs
     ∧ fetch_requests evs `prefix_of` batch_schedule max_records
     ∧ (∀ recs, (fetch_records max_records w σ).1 = Ok recs →
          fetch_requests evs = batch_schedule max_records))
  ∧ (fetch_never_raises w →
     is_Some (webenv (self σ)) → is_Some (query_key (self σ)) →
     ∃ recs, (fetch_records max_records w σ).1 = Ok recs)
  ∧ (∀ (k : nat) retstart retmax,
       batch_schedule max_records !! k = Some (retstart, retmax) →
       retstart = 500 * Z.of_nat k
       ∧ retmax = Z.min 500 (max_records - retstart)
       ∧ 0 < retmax)
  ∧ length (batch_schedule max_records) = Z.to_nat ((max_records + 499) / 500)
  ∧ batch_schedule 1200 = [(0, 500); (500, 500); (1000, 200)].
Proof.
  intros Hpos. split_and!.
  - unfold fetch_records.
    destruct (fetch_loop _ max_records [] w σ) as [r σ'] eqn:Hrun.
    destruct (fetch_loop_requests _ _ _ _ _ _ _ Hrun)
      as (evs & Htr & _ & _ & Hpre & Hall).
    rewrite py_range_batch_schedule in Hpre, Hall.
    exists evs. by split_and!.
  - intros Hw Hwe Hqk. unfold fetch_records.
    destruct (fetch_loop_total w (py_range 0 max_records batch_size)
                max_records Hw [] σ Hwe Hqk) as (recs & σ' & ->).
    by exists recs.
  - apply batch_schedule_lookup.
  - unfold batch_schedule. by rewrite length_fmap, length_seq.
  - reflexivity.
Qed.

(** ** A retriever without session tokens *)

Lemma py_range_nonpos max_records :
  max_records ≤ 0 → py_range 0 max_records batch_size = [].
Proof.
  intros Hle. unfold py_range, batch_size. change (0 <? 500) with true. cbv iota.
  assert (Hdiv : (max_records - 0 + 500 - 1) / 500 < 1).
  { apply Z.div_lt_upper_bound; lia. }
  replace (Z.to_nat ((max_records - 0 + 500 - 1) / 500)) with 0%nat by lia.
  reflexivity.
Qed.

Lemma py_range_pos max_records :
  0 < max_records → ∃ starts, py_range 0 max_records batch_size = 0 :: starts.
Proof.
  intros Hpos. unfold py_range, batch_size. change (0 <? 500) with true. cbv iota.
  assert (Hn : (0 < Z.to_nat ((max_records - 0 + 500 - 1) / 500))%nat).
  { assert (1 ≤ (max_records - 0 + 500 - 1) / 500); [|lia].
    apply Z.div_le_lower_bound; lia. }
  destruct (Z.to_nat _) as [|n]; [lia|]. simpl. eauto.
Qed.

(** The amended C10: the token attributes are read inside the loop.
    With [max_records > 0], a retriever whose [webenv] is unassigned
    makes [fetch_records] raise [AttributeError] for 'webenv', and one
    with [webenv] but no [query_key] for 'query_key', in the first
    iteration, before any request is issued and without changing the
    state; a [search] whose body raised leaves [query_key] unassigned if
    it was, so [fetch_records] after such a search fails in this way.
    With [max_records <= 0] the loop body never runs: [fetch_records]
    returns the empty list and changes nothing, whatever the retriever
    holds. *)
Theorem fetch_records_needs_tokens (w : World) (σ : State) (max_records : Z) :
  (0 < max_records →
     (webenv (self σ) = None →
        fetch_records max_records w σ
        = (Raise (Exn AttributeError "'NCBIRetriever' object has no attribute 'webenv'"), σ))
     ∧ (is_Some (webenv (self σ)) → query_key (self σ) = None →
        fetch_records max_records w σ
        = (Raise (Exn AttributeError "'NCBIRetriever' object has no attribute 'query_key'"), σ))
     ∧ (webenv (self σ) = None ∨ query_key (self σ) = None →
        ∃ msg, fetch_records max_records w σ = (Raise (Exn AttributeError msg), σ))
     ∧ (query_key (self σ) = None →
        ∀ taxid e σb, search_body taxid w σ = (Raise e, σb) →
          ∃ msg, fetch_records max_records w (search taxid w σ).2
                 = (Raise (Exn AttributeError msg), (search taxid w σ).2)))
  ∧ (max_records ≤ 0 → fetch_records max_records w σ = (Ok [], σ)).
Proof.
  split.
  - intros Hpos. destruct (py_range_pos _ Hpos) as [starts Hstarts].
    assert (Hwe_none : ∀ σ0, webenv (self σ0) = None →
              fetch_records max_records w σ0
              = (Raise (Exn AttributeError
                          "'NCBIRetriever' object has no attribute 'webenv'"), σ0)).
    { intros σ0 Hwe. unfold fetch_records. rewrite Hstarts. simpl.
      by rewrite bind_unfold, (getattr_None _ _ _ _ Hwe). }
    assert (Hqk_none : ∀ σ0, is_Some (webenv (self σ0)) → query_key (self σ0) = None →
              fetch_records max_records w σ0
              = (Raise (Exn AttributeError
                          "'NCBIRetriever' object has no attribute 'query_key'"), σ0)).
    { intros σ0 [we Hwe] Hqk. unfold fetch_records. rewrite Hstarts. simpl.
      rewrite bind_unfold, (getattr_Some _ _ _ _ _ Hwe), bind_unfold.
      by rewrite (getattr_None _ _ _ _ Hqk). }
    assert (Hfail : ∀ σ0, webenv (self σ0) = None ∨ query_key (self σ0) = None →
              ∃ msg, fetch_records max_records w σ0
                     = (Raise (Exn AttributeError msg), σ0)).
    { intros σ0 Hσ0. destruct (webenv (self σ0)) as [we|] eqn:Hwe.
      - destruct Hσ0 as [?|Hqk]; [done|]. eexists. apply Hqk_none; [|done].
        rewrite Hwe. by eexists.
      - eexists. by apply Hwe_none. }
    split_and!; [by apply Hwe_none | by apply Hqk_none | by apply Hfail |].
    intros Hqk taxid e σb Hbody. apply Hfail. right.
    pose proof (search_body_Raise_query_key _ _ _ _ _ Hbody) as Hkeep.
    unfold search, try_except. rewrite Hbody.
    destruct (is_Exception (exn_cls e)); simpl; congruence.
  - intros Hle. unfold fetch_records. by rewrite py_range_nonpos.
Qed.

(** ** The tabulator and the plotter *)

#[global] Instance by_length_desc_trans : Transitive by_length_desc.
Proof. unfold by_length_desc. intros r1 r2 r3. lia. Qed.

#[global] Instance by_length_desc_total : Total by_length_desc.
Proof. unfold by_length_desc. intros r1 r2. lia. Qed.

Lemma sort_values_run w df σ :
  "length" ∈ df_columns df →
  sort_values_length_desc df w σ =
    (Ok (mkDataFrame (df_columns df) (DataFrame_sort_length_desc w (df_rows df))), σ).
Proof. intros Hcol. unfold sort_values_length_desc. by rewrite bool_decide_eq_true_2. Qed.

Lemma column_run {A} w df name (field : Row → A) σ :
  name ∈ df_columns df →
  column df name field w σ = (Ok (field <$> df_rows df), σ).
Proof. intros Hcol. unfold column. by rewrite bool_decide_eq_true_2. Qed.

Lemma length_in_table_columns : "length" ∈ table_columns.
Proof. unfold table_columns. by right; left. Qed.

Lemma accession_in_table_columns : "accession" ∈ table_columns.
Proof. unfold table_columns. by left. Qed.

(** [save_csv] on an empty list: the frame has no columns, so the sort
    raises and nothing is written. *)
Lemma save_csv_nil w filename σ :
  save_csv [] filename w σ = (Raise (Exn KeyError "length"), σ).
Proof. reflexivity. Qed.

Lemma save_csv_run w records filename σ :
  records ≠ [] →
  let df := mkDataFrame table_columns
              (DataFrame_sort_length_desc w (to_row <$> records)) in
  save_csv records filename w σ =
    (match DataFrame_to_csv w (trace σ) filename df with
     | Ok _ => Ok df
     | Raise e => Raise e
     end,
     log (EvToCsv filename table_columns (df_rows df)) σ).
Proof.
  intros Hne. destruct records as [|r records]; [done|]. cbn zeta.
  unfold save_csv. rewrite bind_unfold. simpl pd_DataFrame.
  rewrite sort_values_run by apply length_in_table_columns.
  rewrite bind_unfold, call_run. cbn [df_columns df_rows].
  by destruct (DataFrame_to_csv w (trace σ) filename _).
Qed.

Lemma save_csv_Ok_inv w records filename σ df σ' :
  save_csv records filename w σ = (Ok df, σ') →
  df = mkDataFrame table_columns (DataFrame_sort_length_desc w (to_row <$> records))
  ∧ σ' = log (EvToCsv filename table_columns (df_rows df)) σ.
Proof.
  destruct (decide (records = [])) as [->|Hne]; [by rewrite save_csv_nil|].
  rewrite save_csv_run by done. cbn zeta.
  destruct (DataFrame_to_csv w (trace σ) filename _); [|done].
  intros [= <- <-]. done.
Qed.

(** In a list sorted by length with pairwise distinct lengths, the
    order is forced. *)
Lemma sorted_distinct_unique (l1 l2 : list Row) :
  NoDup (row_length <$> l1) →
  Sorted by_length_desc l1 → Sorted by_length_desc l2 → l1 ≡ₚ l2 → l1 = l2.
Proof.
  intros Hnd Hs1 Hs2 Hperm. apply (Sorted_unique_strong by_length_desc); try done.
  intros x1 x2 Hx1 Hx2 H12 H21. unfold by_length_desc in *.
  rewrite <- Hperm in Hx2.
  apply (NoDup_fmap_1 row_length) in Hnd as Hinj. 
  eapply list_elem_of_lookup in Hx1 as [i Hi].
  eapply list_elem_of_lookup in Hx2 as [j Hj].
  assert (i = j); [|by simplify_eq].
  eapply (NoDup_lookup (row_length <$> l1)); [done| |].
  - by rewrite list_lookup_fmap, Hi.
  - rewrite list_lookup_fmap, Hj. simpl. f_equal. lia.
Qed.

(** The amended C2: whenever [save_csv] returns a table, its rows are
    the projected records rearranged into non-increasing order of
    length, with the three columns accession, length, description, and
    this is the table handed to [to_csv]; when the lengths are pairwise
    distinct this order is the only sorted one.  [save_csv] does return
    a table for a non-empty list when [to_csv] does not raise.  Nothing
    is promised about the relative order of records of equal length. *)
Theorem save_csv_sorted (w : World) (records : list SeqRecord)
    (filename : string) (σ : State) :
  sort_contract w →
  (∀ df σ', save_csv records filename w σ = (Ok df, σ') →
     Sorted by_length_desc (df_rows df)
     ∧ df_rows df ≡ₚ to_row <$> records
     ∧ df_columns df = ["accession"; "length"; "description"]
     ∧ trace σ' = trace σ ++ [EvToCsv filename (df_columns df) (df_rows df)]
     ∧ (NoDup (len_seq <$> records) →
        ∀ rows, rows ≡ₚ to_row <$> records → Sorted by_length_desc rows →
                rows = df_rows df))
  ∧ (records ≠ [] →
     (∀ df, DataFrame_to_csv w (trace σ) filename df = Ok tt) →
     ∃ df σ', save_csv records filename w σ = (Ok df, σ')).
Proof.
  intros Hsort. split.
  - intros df σ' Hrun. apply save_csv_Ok_inv in Hrun as [-> ->].
    destruct (Hsort (to_row <$> records)) as [Hperm Hsorted].
    cbn [df_rows df_columns]. split_and!; try done.
    intros Hnd rows Hrows Hrows_sorted. symmetry.
    apply sorted_distinct_unique; try done.
    + rewrite Hperm, <- list_fmap_compose.
      by replace (row_length ∘ to_row) with len_seq.
    + by rewrite Hperm, Hrows.
  - intros Hne Hcsv. rewrite save_csv_run by done. cbn zeta.
    rewrite Hcsv. by eexists _, _.
Qed.

Lemma bind_ext {A B} (m : M A) (k1 k2 : A → M B) w σ :
  (∀ a σ', k1 a w σ' = k2 a w σ') → (m ≫= k1) w σ = (m ≫= k2) w σ.
Proof. intros Hk. rewrite !bind_unfold. destruct (m w σ) as [[a|e] σ']; auto. Qed.

Lemma plot_lengths_plt_seq w df png_filename σ :
  df_columns df = table_columns →
  plot_lengths df png_filename w σ =
    plt_seq (plot_calls (DataFrame_sort_length_desc w (df_rows df)) png_filename) w σ.
Proof.
  intros Hcols. unfold plot_lengths. rewrite bind_unfold.
  rewrite sort_values_run by (rewrite Hcols; apply length_in_table_columns).
  simpl plt_seq. apply bind_ext. intros _ σ1.
  rewrite bind_unfold, column_run
    by (cbn [df_columns]; rewrite Hcols; apply accession_in_table_columns).
  rewrite bind_unfold, column_run
    by (cbn [df_columns]; rewrite Hcols; apply length_in_table_columns).
  cbn [df_rows].
  do 7 (apply bind_ext; intros _ ?).
  rewrite bind_unfold. by destruct (plt Close w _) as [[[]|e] ?].
Qed.

(** A run of [plt_seq cs] performs the first [n] calls of [cs]: all of
    them when it returns, and every call but possibly the last
    performed one has returned normally. *)
Lemma plt_seq_run w cs : ∀ σ r σ',
  plt_seq cs w σ = (r, σ') →
  ∃ n : nat,
    trace σ' = trace σ ++ (EvPlt <$> take n cs)
    ∧ (n ≤ length cs)%nat
    ∧ (r = Ok tt → n = length cs)
    ∧ (∀ e, r = Raise e →
         ∃ c, cs !! pred n = Some c ∧ (0 < n)%nat
              ∧ pyplot w (trace σ ++ (EvPlt <$> take (pred n) cs)) c = Raise e)
    ∧ (∀ (i : nat) c, (S i < n)%nat → cs !! i = Some c →
         pyplot w (trace σ ++ (EvPlt <$> take i cs)) c = Ok tt).
Proof.
  induction cs as [|c cs IH]; intros σ r σ' Hrun.
  - simpl in Hrun. rewrite ret_run in Hrun. simplify_eq. exists 0%nat.
    rewrite app_nil_r. split_and!; try done; intros; lia.
  - simpl in Hrun. rewrite bind_unfold in Hrun. unfold plt at 1 in Hrun.
    rewrite call_run in Hrun.
    destruct (pyplot w (trace σ) c) as [[]|e] eqn:Hc.
    + destruct (IH _ _ _ Hrun) as (n & Htr & Hle & Hok & Herr & Hprev).
      exists (S n). cbn [log trace] in *. split_and!.
      * rewrite Htr. simpl. by rewrite <- (assoc_L (++)).
      * simpl. lia.
      * intros Hr. simpl. f_equal. auto.
      * intros e Hr. destruct (Herr e Hr) as (c' & Hc' & Hn & Hraise).
        exists c'. destruct n as [|n]; [lia|]. simpl in *.
        split_and!; [done|lia|]. by rewrite <- (assoc_L (++)) in Hraise.
      * intros i c' Hi Hlook. destruct i as [|i].
        -- simpl in *. rewrite app_nil_r. by simplify_eq.
        -- simpl in *. rewrite cons_middle, (assoc_L (++)).
           apply Hprev; [lia|done].
    + simplify_eq. exists 1%nat. split_and!; try done.
      * simpl. lia.
      * intros e' [= <-]. exists c. simpl. rewrite app_nil_r.
        split_and!; [done|lia|done].
      * intros; lia.
Qed.

#[global] Instance EvPlt_inj : Inj (=) (=) EvPlt.
Proof. by intros c1 c2 [= ->]. Qed.

(** Decide membership in a list written out element by element. *)
Ltac elem_of_cases H :=
  repeat (apply elem_of_cons in H as [H|H]; [try discriminate H|]);
  try (by apply elem_of_nil in H).


Lemma plot_calls_Plot rows png_filename xs ys marker :
  Plot xs ys marker ∈ plot_calls rows png_filename →
  xs = row_accession <$> rows ∧ ys = row_length <$> rows.
Proof.
  intros Hin. unfold plot_calls in Hin. elem_of_cases Hin. by simplify_eq.
Qed.






#[global] Instance Z_desc_trans : Transitive Z_desc.
Proof. unfold Z_desc. intros a b c. lia. Qed.

#[global] Instance Z_desc_antisymm : AntiSymm (=) Z_desc.
Proof. unfold Z_desc. intros a b. lia. Qed.

(** Two sorted rearrangements of the same rows show the same sequence
    of lengths. *)
Lemma sorted_lengths_unique (l1 l2 : list Row) :
  Sorted by_length_desc l1 → Sorted by_length_desc l2 → l1 ≡ₚ l2 →
  row_length <$> l1 = row_length <$> l2.
Proof.
  intros Hs1 Hs2 Hperm. apply (Sorted_unique Z_desc).
  - by apply (Sorted_fmap row_length by_length_desc Z_desc).
  - by apply (Sorted_fmap row_length by_length_desc Z_desc).
  - by rewrite Hperm.
Qed.

(** ** The orchestrator *)

Lemma input_run prompt w σ line rest :
  stdin σ = line :: rest →
  input prompt w σ =
    (Ok line, mkState (self σ) (entrez σ) rest (trace σ ++ [EvInput prompt])).
Proof. intros H. unfold input. by rewrite H. Qed.

Lemma main_inputs w σ email api_key taxid smin smax rest lo hi :
  stdin σ = email :: api_key :: taxid :: smin :: smax :: rest →
  int_of_str w smin = Ok lo →
  int_of_str w smax = Ok hi →
  main w σ =
    main_after_inputs taxid lo hi w (state_after_inputs σ email api_key rest).
Proof.
  intros Hin Hlo Hhi. unfold main.
  do 3 (erewrite bind_Ok by (by apply input_run)).
  rewrite bind_unfold. erewrite bind_Ok by (by apply input_run).
  rewrite int_run. cbn [py_int]. rewrite Hlo.
  rewrite bind_unfold. erewrite bind_Ok by (by apply input_run).
  rewrite int_run. cbn [py_int]. rewrite Hhi.
  rewrite bind_unfold. unfold NCBIRetriever at 1. cbn [self entrez stdin trace].
  unfold state_after_inputs, prompts. rewrite <- !(assoc_L (++)). done.
Qed.

Lemma fetch_records_writes_no_file max_records :
  emits writes_no_file (fetch_records max_records).
Proof.
  intros w σ r σ' Hrun. unfold fetch_records in Hrun.
  destruct (fetch_loop_requests _ _ _ _ _ _ _ Hrun) as (evs & Htr & _ & Hnf & _).
  eauto.
Qed.

(** C4. When the five inputs are read and [search] returns 0, [main]
    prints "No results." and returns normally, and the run has asked
    for no file to be written: neither [to_csv] nor [savefig] occurs
    among the events it added to the trace. *)
Theorem main_no_results (w : World) (σ σs : State)
    (email api_key taxid smin smax : string) (rest : list string) (lo hi : Z) :
  stdin σ = email :: api_key :: taxid :: smin :: smax :: rest →
  int_of_str w smin = Ok lo →
  int_of_str w smax = Ok hi →
  search taxid w (state_after_inputs σ email api_key rest) = (Ok 0, σs) →
  main w σ = (Ok tt, log (EvPrint [Lit "No results."]) σs)
  ∧ ∃ evs, trace (main w σ).2 = trace σ ++ evs
      ∧ last evs = Some (EvPrint [Lit "No results."])
      ∧ files_written evs = [].
Proof.
  intros Hin Hlo Hhi Hsearch.
  rewrite (main_inputs _ _ _ _ _ _ _ _ _ _ Hin Hlo Hhi).
  unfold main_after_inputs. rewrite (bind_Ok _ _ _ _ _ _ Hsearch).
  rewrite bool_decide_eq_true_2 by done. rewrite print_run.
  split; [done|].
  destruct (search_writes_no_file _ _ _ _ _ Hsearch) as (evs & Htr & Hnf).
  exists (prompts ++ evs ++ [EvPrint [Lit "No results."]]). cbn [snd log trace].
  split_and!.
  - rewrite Htr. cbn [state_after_inputs trace]. by rewrite <- !(assoc_L (++)).
  - by rewrite !(assoc_L (++)), last_snoc.
  - rewrite !files_written_app, (Forall_writes_no_file evs Hnf). done.
Qed.

(** C5. When [search] returns a non-zero count, [fetch_records]
    returns, and no fetched record is within the length bounds, [main]
    prints "No records match length criteria." and returns normally,
    and the run has asked for no file to be written. *)
Theorem main_no_matches (w : World) (σ σs σf : State)
    (email api_key taxid smin smax : string) (rest : list string) (lo hi : Z)
    (count : Z) (raw_records : list SeqRecord) :
  stdin σ = email :: api_key :: taxid :: smin :: smax :: rest →
  int_of_str w smin = Ok lo →
  int_of_str w smax = Ok hi →
  search taxid w (state_after_inputs σ email api_key rest) = (Ok count, σs) →
  count ≠ 0 →
  fetch_records 1000 w
    (log (EvPrint [Lit "Fetching up to 1000 records out of ";
                   Val (PInt count); Lit " available..."]) σs)
    = (Ok raw_records, σf) →
  filter_records raw_records lo hi = [] →
  main w σ = (Ok tt, log (EvPrint [Lit "No records match length criteria."]) σf)
  ∧ ∃ evs, trace (main w σ).2 = trace σ ++ evs
      ∧ last evs = Some (EvPrint [Lit "No records match length criteria."])
      ∧ files_written evs = [].
Proof.
  intros Hin Hlo Hhi Hsearch Hcount Hfetch Hnone.
  rewrite (main_inputs _ _ _ _ _ _ _ _ _ _ Hin Hlo Hhi).
  unfold main_after_inputs. rewrite (bind_Ok _ _ _ _ _ _ Hsearch).
  rewrite bool_decide_eq_false_2 by done.
  rewrite bind_unfold, print_run. rewrite (bind_Ok _ _ _ _ _ _ Hfetch).
  cbn zeta. rewrite Hnone, print_run.
  split; [done|].
  destruct (search_writes_no_file _ _ _ _ _ Hsearch) as (evs1 & Htr1 & Hnf1).
  destruct (fetch_records_writes_no_file _ _ _ _ _ Hfetch) as (evs2 & Htr2 & Hnf2).
  exists (prompts ++ evs1 ++
          [EvPrint [Lit "Fetching up to 1000 records out of ";
                    Val (PInt count); Lit " available..."]] ++ evs2 ++
          [EvPrint [Lit "No records match length criteria."]]).
  cbn [snd log trace] in *. split_and!.
  - rewrite Htr2, Htr1. cbn [state_after_inputs trace].
    by rewrite <- !(assoc_L (++)).
  - by rewrite !(assoc_L (++)), last_snoc.
  - rewrite !files_written_app, (Forall_writes_no_file evs1 Hnf1),
      (Forall_writes_no_file evs2 Hnf2). done.
Qed.

(** ** Example worlds *)

Lemma insert_after_ties_perm x l : insert_after_ties x l ≡ₚ x :: l.
Proof.
  induction l as [|y l IH]; [done|]. simpl.
  destruct (row_length y <? row_length x); [done|].
  rewrite IH. apply Permutation_swap.
Qed.

Lemma insert_after_ties_sorted x l :
  Sorted by_length_desc l → Sorted by_length_desc (insert_after_ties x l).
Proof.
  induction l as [|y l IH]; intros Hs.
  - simpl. by repeat constructor.
  - simpl. destruct (row_length y <? row_length x) eqn:Hlt.
    + apply Z.ltb_lt in Hlt. constructor; [done|]. constructor.
      unfold by_length_desc. lia.
    + apply Z.ltb_ge in Hlt. inversion Hs as [|? ? Hs' Hhd]; subst.
      constructor; [by apply IH|].
      destruct l as [|z l]; simpl.
      * by constructor.
      * destruct (row_length z <? row_length x); constructor; try done.
        by inversion Hhd.
Qed.

Lemma sort_ties_reversed_contract rows :
  sort_ties_reversed rows ≡ₚ rows ∧ Sorted by_length_desc (sort_ties_reversed rows).
Proof.
  unfold sort_ties_reversed. induction rows as [|x rows [IHp IHs]]; simpl.
  - split; [done|constructor].
  - split.
    + by rewrite insert_after_ties_perm, IHp.
    + by apply insert_after_ties_sorted.
Qed.

Lemma merge_sort_contract rows :
  merge_sort by_length_desc rows ≡ₚ rows
  ∧ Sorted by_length_desc (merge_sort by_length_desc rows).
Proof.
  split; [apply merge_sort_Permutation | apply (Sorted_merge_sort by_length_desc)].
Qed.

Lemma demo_stable_contract : sort_contract demo_stable.
Proof. intros rows. apply merge_sort_contract. Qed.

Lemma demo_unstable_contract : sort_contract demo_unstable.
Proof. intros rows. apply sort_ties_reversed_contract. Qed.

(** ** Example runs *)

Lemma demo_fetch_never_raises count sort disk_full :
  fetch_never_raises (demo_world count sort disk_full).
Proof.
  split.
  - intros tr retstart retmax we qk. by eexists.
  - intros tr h. simpl. destruct (fetch_requests tr) as [|? [|? ?]]; by eexists.
Qed.

(** C2 at [demo_records] with a stable sort. *)
Lemma save_csv_sorted_witness :
  sort_contract demo_stable
  ∧ ∃ df σ',
      save_csv demo_records "taxid_562_filtered.csv" demo_stable (initial_state [])
      = (Ok df, σ')
      ∧ Sorted by_length_desc (df_rows df)
      ∧ df_rows df ≡ₚ to_row <$> demo_records.
Proof.
  split; [apply demo_stable_contract|].
  destruct (save_csv_sorted demo_stable demo_records "taxid_562_filtered.csv"
              (initial_state []) demo_stable_contract) as [Hsorted Hreturns].
  destruct Hreturns as (df & σ' & Hrun); [done|done|].
  exists df, σ'. split; [exact Hrun|].
  destruct (Hsorted df σ' Hrun) as (Hs & Hp & _). by split.
Defined.

(** Counterexample to C2 as worded, on four records of lengths 4, 4, 8
    and 8 given in the order AB000004.1, AB000005.1, AB000006.1,
    AB000007.1: the table written to the CSV file lists AB000007.1,
    AB000006.1, AB000005.1, AB000004.1.  It is sorted by length and has
    the four rows, but each pair of equal-length records is in the
    opposite of its original order; a stable sort would have written
    AB000006.1, AB000007.1, AB000004.1, AB000005.1. *)
Lemma save_csv_reorders_ties :
  sort_contract demo_unstable
  ∧ save_csv [tie_a; tie_b; tie_c; tie_d] "taxid_562_filtered.csv" demo_unstable
      (initial_state [])
    = (Ok (mkDataFrame table_columns
             [to_row tie_d; to_row tie_c; to_row tie_b; to_row tie_a]),
       mkState new_retriever (mkEntrezConfig None None None) []
         [EvToCsv "taxid_562_filtered.csv" table_columns
            [to_row tie_d; to_row tie_c; to_row tie_b; to_row tie_a]])
  ∧ row_accession <$> [to_row tie_d; to_row tie_c; to_row tie_b; to_row tie_a]
    = ["AB000007.1"; "AB000006.1"; "AB000005.1"; "AB000004.1"]
  ∧ merge_sort by_length_desc (to_row <$> [tie_a; tie_b; tie_c; tie_d])
    = [to_row tie_c; to_row tie_d; to_row tie_a; to_row tie_b]
  ∧ ¬ keeps_tie_order (to_row <$> [tie_a; tie_b; tie_c; tie_d])
        [to_row tie_d; to_row tie_c; to_row tie_b; to_row tie_a].
Proof.
  split_and!.
  - apply demo_unstable_contract.
  - reflexivity.
  - reflexivity.
  - reflexivity.
  - intros Hkeep. specialize (Hkeep 4). vm_compute in Hkeep. discriminate Hkeep.
Qed.

(** C3 at [max_records = 1200]: the run issues the three requests. *)
Lemma fetch_records_pagination_witness :
  0 < 1200
  ∧ fetch_requests (trace (fetch_records 1200 demo_stable demo_state_searched).2)
    = [(0, 500); (500, 500); (1000, 200)].
Proof.
  split; [reflexivity|].
  destruct (fetch_records_pagination demo_stable demo_state_searched 1200 eq_refl)
    as ((evs & Htr & _ & Hall) & Hreturns & _ & _ & Hplan).
  destruct Hreturns as [recs Hrecs];
    [apply demo_fetch_never_raises | by eexists | by eexists |].
  rewrite Htr. change (trace demo_state_searched ++ evs) with evs.
  rewrite (Hall recs Hrecs). exact Hplan.
Defined.

(** C4 on a search whose Count is 0. *)
Lemma main_no_results_witness :
  (main demo_no_hits (initial_state (demo_inputs "5" "15"))).1 = Ok tt
  ∧ files_written (trace (main demo_no_hits (initial_state (demo_inputs "5" "15"))).2)
    = [].
Proof.
  edestruct (main_no_results demo_no_hits (initial_state (demo_inputs "5" "15")))
    as [Hmain (evs & Htr & _ & Hfiles)];
    [reflexivity | reflexivity | reflexivity | vm_compute; reflexivity |].
  split.
  - by rewrite Hmain.
  - rewrite Htr. exact Hfiles.
Defined.

(** C5 with bounds 100..200, which none of the three records meets. *)
Lemma main_no_matches_witness :
  (main demo_stable (initial_state (demo_inputs "100" "200"))).1 = Ok tt
  ∧ files_written
      (trace (main demo_stable (initial_state (demo_inputs "100" "200"))).2)
    = [].
Proof.
  edestruct (main_no_matches demo_stable (initial_state (demo_inputs "100" "200")))
    as [Hmain (evs & Htr & _ & Hfiles)];
    [reflexivity | reflexivity | reflexivity | vm_compute; reflexivity | done
    | vm_compute; reflexivity | reflexivity |].
  split.
  - by rewrite Hmain.
  - rewrite Htr. exact Hfiles.
Defined.



(** C10 on a retriever that has never searched, with the default
    [max_records] of [main] and with a negative one. *)
Lemma fetch_records_needs_tokens_witness :
  fetch_records 1000 demo_stable (initial_state [])
  = (Raise (Exn AttributeError "'NCBIRetriever' object has no attribute 'webenv'"),
     initial_state [])
  ∧ fetch_records (-5) demo_stable (initial_state []) = (Ok [], initial_state []).
Proof.
  split.
  - by apply (fetch_records_needs_tokens demo_stable (initial_state []) 1000).
  - by apply (fetch_records_needs_tokens demo_stable (initial_state []) (-5)).
Defined.

(** Counterexample to C10 as worded: with [max_records = 0] the loop
    body never runs, the token attributes are never read, and
    [fetch_records] returns the empty list on a retriever that has
    never searched. *)
Lemma fetch_records_zero_without_search :
  webenv (self (initial_state [])) = None
  ∧ query_key (self (initial_state [])) = None
  ∧ fetch_records 0 demo_stable (initial_state []) = (Ok [], initial_state []).
Proof. by split_and!. Qed.


(** * Further properties *)

(** ** filter_records: edges and composition *)

Lemma len_seq_nonneg r : 0 ≤ len_seq r.
Proof. unfold len_seq. lia. Qed.

(** X1. Inverted bounds are not an error: with [max_len < min_len]
    the filter returns the empty list whatever the records are. *)
Theorem filter_records_inverted_bounds (records : list SeqRecord) (min_len max_len : Z) :
  max_len < min_len →
  filter_records records min_len max_len = [].
Proof.
  intros Hinv. induction records as [|r records IH]; [done|].
  rewrite filter_records_cons_out; [done|]. unfold in_bounds. lia.
Qed.

Lemma filter_records_inverted_bounds_witness :
  15 < 20 ∧ filter_records demo_records 20 15 = [].
Proof.
  split; [reflexivity|].
  apply (filter_records_inverted_bounds demo_records 20 15). reflexivity.
Defined.

(** X2. A lower bound of 0 or less excludes nothing, since lengths are
    never negative: if in addition every record is at most [max_len]
    long, the filter returns its input unchanged. *)
Theorem filter_records_keeps_all (records : list SeqRecord) (min_len max_len : Z) :
  min_len ≤ 0 →
  Forall (λ r, len_seq r ≤ max_len) records →
  filter_records records min_len max_len = records.
Proof.
  intros Hlo Hall. induction Hall as [|r records Hr _ IH]; [done|].
  rewrite filter_records_cons_in, IH; [done|].
  pose proof (len_seq_nonneg r). unfold in_bounds. lia.
Qed.

Lemma filter_records_keeps_all_witness :
  filter_records demo_records 0 12 = demo_records.
Proof.
  apply (filter_records_keeps_all demo_records 0 12); [done|].
  repeat constructor; vm_compute; discriminate.
Defined.

(** X3. Filtering commutes with concatenation (so filtering the
    batches one by one or the accumulated list gives the same result),
    filtering twice intersects the two ranges, filtering again with
    the same bounds changes nothing, and tightening the bounds yields a
    sublist. *)
Theorem filter_records_compose (l1 l2 : list SeqRecord) (lo1 hi1 lo2 hi2 : Z) :
  filter_records (l1 ++ l2) lo1 hi1
    = filter_records l1 lo1 hi1 ++ filter_records l2 lo1 hi1
  ∧ filter_records (filter_records l1 lo2 hi2) lo1 hi1
    = filter_records l1 (Z.max lo1 lo2) (Z.min hi1 hi2)
  ∧ filter_records (filter_records l1 lo1 hi1) lo1 hi1 = filter_records l1 lo1 hi1
  ∧ (lo1 ≤ lo2 → hi2 ≤ hi1 →
     filter_records l1 lo2 hi2 `sublist_of` filter_records l1 lo1 hi1).
Proof.
  rewrite !filter_records_filter. split_and!.
  - apply filter_app.
  - rewrite list_filter_filter. apply list_filter_iff.
    intros r. unfold in_bounds. lia.
  - apply list_filter_filter_l. done.
  - intros Hlo Hhi.
    rewrite <- (list_filter_filter_l (in_bounds lo2 hi2) (in_bounds lo1 hi1)).
    + apply sublist_filter.
    + intros r. unfold in_bounds. lia.
Qed.

(** ** search: what a run does to the service and to the retriever *)

Ltac close_prefix :=
  repeat apply prefix_cons; first [apply prefix_nil | done].

(** Close a branch in which the run has ended with an error. *)
Ltac branch_done :=
  simplify_eq; eexists; split; [reflexivity|];
  split; [simpl; close_prefix | by intros ? ?].

Lemma network_requests_app tr1 tr2 :
  network_requests (tr1 ++ tr2) = network_requests tr1 ++ network_requests tr2.
Proof. apply omap_app. Qed.

Lemma search_body_requests w taxid σ r σ' :
  search_body taxid w σ = (r, σ') →
  ∃ evs, trace σ' = trace σ ++ evs
    ∧ network_requests evs
        `prefix_of` [EvEfetchTaxonomy taxid; EvEsearch (search_term taxid)]
    ∧ (∀ n, r = Ok n →
         network_requests evs = [EvEfetchTaxonomy taxid; EvEsearch (search_term taxid)]).
Proof.
  unfold search_body, search_term. intros Hrun.
  do 4 (step_run Hrun; case_result Hrun; [|branch_done]).
  do 2 step_run Hrun.
  do 4 (step_run Hrun; case_result Hrun; [|branch_done]).
  step_run Hrun.
  step_run Hrun; case_result Hrun; [|branch_done].
  step_run Hrun.
  step_run Hrun; case_result Hrun; [|branch_done].
  step_run Hrun. rewrite ret_run in Hrun. simplify_eq.
  eexists; split; [reflexivity|]. split; [simpl; close_prefix | by intros ? ?].
Qed.

(** X4. [search] talks to the service at most twice and never
    repeats a call: the requests of any run are a prefix of "taxonomy
    efetch for the ID, then esearch for txid<ID>[Organism]", and they are
    exactly these two when the run returns a non-zero count.  It never
    issues a nucleotide fetch. *)
Theorem search_requests_once (w : World) (taxid : string) (σ : State) :
  ∃ evs, trace (search taxid w σ).2 = trace σ ++ evs
    ∧ network_requests evs
        `prefix_of` [EvEfetchTaxonomy taxid; EvEsearch (search_term taxid)]
    ∧ (∀ n, (search taxid w σ).1 = Ok n → n ≠ 0 →
         network_requests evs = [EvEfetchTaxonomy taxid; EvEsearch (search_term taxid)]).
Proof.
  unfold search, try_except.
  destruct (search_body taxid w σ) as [[n|e] σb] eqn:Hbody;
    destruct (search_body_requests _ _ _ _ _ Hbody) as (evs & Htr & Hpre & Hall).
  - exists evs. cbn [fst snd]. split_and!; [done..|]. intros n' [= <-] _. by apply (Hall n).
  - destruct (is_Exception (exn_cls e)).
    + exists (evs ++ [EvPrint [Lit "Search error: "; Err e]]). cbn [fst snd].
      rewrite bind_unfold, print_run, ret_run. cbn [fst snd log trace].
      rewrite network_requests_app. simpl (network_requests [_]).
      rewrite app_nil_r. split_and!.
      * by rewrite Htr, <- (assoc_L (++)).
      * done.
      * by intros n [= <-] ?.
    + exists evs. cbn [fst snd]. by split_and!.
Qed.

(** X5. A non-zero result of [search] can only come from a completed
    body: the retriever then holds an organism name, the returned count
    and both session tokens, so the [fetch_records] that [main] calls
    next finds [webenv] and [query_key] assigned. *)
Theorem search_nonzero_sets_tokens (w : World) (taxid : string) (σ σ' : State) (n : Z) :
  search taxid w σ = (Ok n, σ') →
  n ≠ 0 →
  search_body taxid w σ = (Ok n, σ')
  ∧ ∃ name we qk, self σ' = mkRetriever (Some name) (Some n) (Some we) (Some qk).
Proof.
  intros Hrun Hn. unfold search, try_except in Hrun.
  destruct (search_body taxid w σ) as [[n'|e] σb] eqn:Hbody.
  - simplify_eq. split; [done|].
    destruct (search_body_Ok_inv _ _ _ _ _ Hbody)
      as (h1 & records & first & name & h2 & res & c & we & qk & H).
    cbn zeta in H. destruct H as (_ & _ & _ & _ & _ & _ & _ & _ & _ & _ & ->).
    by exists name, we, qk.
  - destruct (is_Exception (exn_cls e)); [|done].
    rewrite bind_unfold, print_run, ret_run in Hrun. by simplify_eq.
Qed.

Lemma search_nonzero_sets_tokens_witness :
  search_body "562" demo_stable (initial_state [])
    = (Ok 3, (search "562" demo_stable (initial_state [])).2)
  ∧ ∃ name we qk,
      self (search "562" demo_stable (initial_state [])).2
      = mkRetriever (Some name) (Some 3) (Some we) (Some qk).
Proof.
  apply (search_nonzero_sets_tokens demo_stable "562" (initial_state []) _ 3);
    [reflexivity | done].
Defined.

(** X6. A search that finds the organism but whose esearch call fails
    returns 0 after printing the organism and the error; it assigns
    [organism] and leaves [count], [webenv] and [query_key] as they
    were, so tokens of an earlier search stay in the retriever. *)
Theorem search_esearch_failure_keeps_tokens (w : World) (taxid : string) (σ : State)
    (h : handle) (records first name : pyval) (e : exn) :
  Entrez_efetch_taxonomy w (trace σ) taxid = Ok h →
  Entrez_read w (trace σ ++ [EvEfetchTaxonomy taxid]) h = Ok records →
  subscript_0 records = Ok first →
  subscript_key first "ScientificName" = Ok name →
  Entrez_esearch w
    (trace σ ++ [EvEfetchTaxonomy taxid; EvRead h;
                 EvPrint [Lit "Organism: "; Val name]])
    (search_term taxid) = Raise e →
  is_Exception (exn_cls e) = true →
  search taxid w σ =
    (Ok 0,
     mkState
       (mkRetriever (Some name) (count (self σ)) (webenv (self σ)) (query_key (self σ)))
       (entrez σ) (stdin σ)
       (trace σ ++ [EvEfetchTaxonomy taxid; EvRead h;
                    EvPrint [Lit "Organism: "; Val name];
                    EvEsearch (search_term taxid);
                    EvPrint [Lit "Search error: "; Err e]])).
Proof.
  intros Hfetch Hread Hfirst Hname Hsearch Hexc.
  assert (Hbody : search_body taxid w σ =
            (Raise e,
             mkState
               (mkRetriever (Some name) (count (self σ)) (webenv (self σ))
                  (query_key (self σ)))
               (entrez σ) (stdin σ)
               (trace σ ++ [EvEfetchTaxonomy taxid; EvRead h;
                            EvPrint [Lit "Organism: "; Val name];
                            EvEsearch (search_term taxid)]))).
  { unfold search_body. fold (search_term taxid).
    rewrite bind_unfold, call_run, Hfetch.
    rewrite bind_unfold, call_run. cbn [log trace]. rewrite Hread.
    rewrite bind_unfold, lift_run, Hfirst.
    rewrite bind_unfold, lift_run, Hname.
    rewrite bind_unfold, set_self_run. rewrite bind_unfold, print_run.
    rewrite bind_unfold, call_run. unfold log.
    cbn [trace self entrez stdin organism count webenv query_key].
    rewrite <- !(assoc_L (++)). cbn [app]. by rewrite Hsearch. }
  rewrite (search_of_body_Raise _ _ _ _ _ Hbody Hexc). unfold log.
  cbn [trace self entrez stdin]. by rewrite <- !(assoc_L (++)).
Qed.

Lemma search_esearch_failure_keeps_tokens_witness :
  ∃ σ',
    search "562" demo_esearch_down demo_state_searched = (Ok 0, σ')
    ∧ webenv (self σ') = Some (PStr "MCID_demo")
    ∧ query_key (self σ') = Some (PStr "1").
Proof.
  eexists. split.
  - apply (search_esearch_failure_keeps_tokens demo_esearch_down "562"
             demo_state_searched "taxonomy" demo_taxonomy_reply
             (PDict [("TaxId", PStr "562"); ("ScientificName", PStr "Escherichia coli")])
             (PStr "Escherichia coli")
             (Exn HTTPError "HTTP Error 502: Bad Gateway")); reflexivity.
  - split; reflexivity.
Defined.

(** ** fetch_records: no retry, no recovery, no deduplication *)

Lemma batch_schedule_NoDup max_records : NoDup (batch_schedule max_records).
Proof.
  unfold batch_schedule. apply NoDup_fmap_2_strong; [|apply NoDup_seq].
  intros k1 k2 _ _ [= Hk _]. lia.
Qed.

Lemma prefix_NoDup {A} (l1 l2 : list A) : l1 `prefix_of` l2 → NoDup l2 → NoDup l1.
Proof. intros [k ->] Hnd. by apply NoDup_app in Hnd as [? _]. Qed.

(** X7. [fetch_records] never repeats a request: in any run, also one
    that ends in an error, the (retstart, retmax) pairs sent to the
    service are pairwise distinct.  The run leaves the attributes of the
    retriever as they were. *)
Theorem fetch_records_no_retry (w : World) (σ : State) (max_records : Z) :
  ∃ evs, trace (fetch_records max_records w σ).2 = trace σ ++ evs
    ∧ NoDup (fetch_requests evs)
    ∧ self (fetch_records max_records w σ).2 = self σ.
Proof.
  unfold fetch_records.
  destruct (fetch_loop _ max_records [] w σ) as [r σ'] eqn:Hrun.
  destruct (fetch_loop_requests _ _ _ _ _ _ _ Hrun)
    as (evs & Htr & Hself & _ & Hpre & _).
  rewrite py_range_batch_schedule in Hpre.
  exists evs. cbn [snd]. split_and!; [done| |done].
  eapply prefix_NoDup; [done|]. apply batch_schedule_NoDup.
Qed.




Lemma fetch_loop_same_batch w starts max_records batch :
  (∀ tr retstart retmax we qk,
     ∃ h, Entrez_efetch_nucleotide w tr retstart retmax we qk = Ok h) →
  (∀ tr h, SeqIO_parse w tr h = Ok batch) →
  ∀ acc σ, is_Some (webenv (self σ)) → is_Some (query_key (self σ)) →
  (fetch_loop starts max_records acc w σ).1
    = Ok (acc ++ mjoin (replicate (length starts) batch)).
Proof.
  intros Hfetch Hparse.
  induction starts as [|start starts IH]; intros acc σ [we Hwe] [qk Hqk].
  - simpl. by rewrite app_nil_r.
  - simpl. rewrite bind_unfold, (getattr_Some _ _ _ _ _ Hwe).
    rewrite bind_unfold, (getattr_Some _ _ _ _ _ Hqk).
    rewrite bind_unfold, call_run.
    destruct (Hfetch (trace σ) start
                (Z.min batch_size (max_records - start)) we qk) as [h ->].
    rewrite bind_unfold, call_run, Hparse.
    rewrite IH by (simpl; eauto). by rewrite <- (assoc_L (++)).
Qed.

(** X9. [fetch_records] does not deduplicate: when every fetch
    answers and every reply parses to the same list of records, the
    result holds that list once per request, in order. *)
Theorem fetch_records_no_dedup (w : World) (σ : State) (max_records : Z)
    (batch : list SeqRecord) :
  (∀ tr retstart retmax we qk,
     ∃ h, Entrez_efetch_nucleotide w tr retstart retmax we qk = Ok h) →
  (∀ tr h, SeqIO_parse w tr h = Ok batch) →
  is_Some (webenv (self σ)) →
  is_Some (query_key (self σ)) →
  (fetch_records max_records w σ).1
    = Ok (mjoin (replicate (length (batch_schedule max_records)) batch)).
Proof.
  intros Hfetch Hparse Hwe Hqk. unfold fetch_records.
  rewrite (fetch_loop_same_batch w _ max_records batch Hfetch Hparse [] σ Hwe Hqk).
  by rewrite <- py_range_batch_schedule, length_fmap.
Qed.

Lemma fetch_records_no_dedup_witness :
  (fetch_records 1000 demo_same_batch demo_state_searched).1
  = Ok (demo_records ++ demo_records).
Proof.
  rewrite (fetch_records_no_dedup demo_same_batch demo_state_searched 1000 demo_records).
  - reflexivity.
  - intros. by eexists.
  - done.
  - by eexists.
  - by eexists.
Defined.

(** ** save_csv: outcomes, and the rows it writes *)

(** X10. [save_csv] has three outcomes.  On an empty list it raises
    [KeyError] for the column "length" and asks for no file.  Otherwise
    it asks [to_csv] for the file exactly once; if that raises, the
    error is the result; if not, the returned table is not empty, has
    one row per record (for any sort that rearranges its input), and the
    retriever is untouched. *)
Theorem save_csv_outcomes (w : World) (records : list SeqRecord)
    (filename : string) (σ : State) :
  (records = [] →
     save_csv records filename w σ = (Raise (Exn KeyError "length"), σ))
  ∧ (∀ df σ', save_csv records filename w σ = (Ok df, σ') →
       records ≠ []
       ∧ (sort_contract w → length (df_rows df) = length records)
       ∧ self σ' = self σ
       ∧ files_written (trace σ') = files_written (trace σ) ++ [filename])
  ∧ (∀ e σ', save_csv records filename w σ = (Raise e, σ') →
       records ≠ [] →
       DataFrame_to_csv w (trace σ) filename
         (mkDataFrame table_columns (DataFrame_sort_length_desc w (to_row <$> records)))
       = Raise e
       ∧ files_written (trace σ') = files_written (trace σ) ++ [filename]).
Proof.
  split_and!.
  - intros ->. apply save_csv_nil.
  - intros df σ' Hrun.
    assert (Hne : records ≠ []).
    { intros ->. by rewrite save_csv_nil in Hrun. }
    apply save_csv_Ok_inv in Hrun as [-> ->]. cbn [df_rows log trace self].
    split_and!; [done| |done|].
    + intros Hsort. destruct (Hsort (to_row <$> records)) as [Hperm _].
      by rewrite Hperm, length_fmap.
    + by rewrite files_written_app.
  - intros e σ' Hrun Hne. rewrite save_csv_run in Hrun by done. cbn zeta in Hrun.
    destruct (DataFrame_to_csv w (trace σ) filename _) as [[]|e0]; [done|].
    simplify_eq. split; [done|]. cbn [log trace]. by rewrite files_written_app.
Qed.

(** X11. The table [main] builds from the filtered records holds only
    rows within the bounds: every row of [save_csv (filter_records raw lo hi)]
    has [lo <= length <= hi], is the projection of a fetched record,
    and the rows are a rearrangement of the projections of exactly the
    in-bounds records. *)
Theorem table_rows_in_bounds (w : World) (raw : list SeqRecord) (lo hi : Z)
    (filename : string) (σ σ' : State) (df : DataFrame) :
  sort_contract w →
  save_csv (filter_records raw lo hi) filename w σ = (Ok df, σ') →
  Forall (λ row, lo ≤ row_length row ≤ hi) (df_rows df)
  ∧ (∀ row, row ∈ df_rows df → ∃ r, r ∈ raw ∧ row = to_row r)
  ∧ df_rows df ≡ₚ to_row <$> filter (in_bounds lo hi) raw
  ∧ length (df_rows df) = length (filter_records raw lo hi).
Proof.
  intros Hsort Hrun. apply save_csv_Ok_inv in Hrun as [-> _]. cbn [df_rows].
  destruct (Hsort (to_row <$> filter_records raw lo hi)) as [Hperm _].
  rewrite filter_records_filter in *.
  assert (Hmem : ∀ row, row ∈ DataFrame_sort_length_desc w
                               (to_row <$> filter (in_bounds lo hi) raw) →
                 ∃ r, (r ∈ raw ∧ in_bounds lo hi r) ∧ row = to_row r).
  { intros row Hrow. rewrite Hperm in Hrow.
    apply list_elem_of_fmap in Hrow as (r & -> & Hr).
    apply list_elem_of_filter in Hr as [Hb Hr]. by exists r. }
  split_and!.
  - apply Forall_forall. intros row Hrow.
    destruct (Hmem row Hrow) as (r & [_ Hb] & ->). exact Hb.
  - intros row Hrow. destruct (Hmem row Hrow) as (r & [Hr _] & ->). by exists r.
  - done.
  - by rewrite Hperm, length_fmap.
Qed.

Lemma table_rows_in_bounds_witness :
  ∃ df σ',
    save_csv (filter_records demo_records 5 15) "taxid_562_filtered.csv"
      demo_stable (initial_state []) = (Ok df, σ')
    ∧ Forall (λ row, 5 ≤ row_length row ≤ 15) (df_rows df)
    ∧ length (df_rows df) = length (filter_records demo_records 5 15).
Proof.
  eexists _, _. split; [reflexivity|].
  edestruct (table_rows_in_bounds demo_stable demo_records 5 15
               "taxid_562_filtered.csv" (initial_state []))
    as (Hin & _ & _ & Hlen); [apply demo_stable_contract | reflexivity |].
  split; [exact Hin | exact Hlen].
Defined.

Lemma StronglySorted_last_min (l : list Row) (y : Row) :
  StronglySorted by_length_desc l → last l = Some y →
  ∀ x, x ∈ l → row_length y ≤ row_length x.
Proof.
  induction 1 as [|a l Hs IH Hall]; [done|]. intros Hlast x Hx.
  destruct l as [|b l].
  - simpl in Hlast. apply elem_of_cons in Hx as [->|Hx]; [by simplify_eq|].
    by apply elem_of_nil in Hx.
  - change (last (a :: b :: l)) with (last (b :: l)) in Hlast.
    apply elem_of_cons in Hx as [->|Hx]; [|by apply IH].
    assert (Hy : y ∈ b :: l).
    { apply last_Some in Hlast as [l' ->]. apply elem_of_app. right. by left. }
    by apply (proj1 (Forall_forall _ _) Hall).
Qed.

(** X12. In the table [save_csv] returns, the first row is the row of a
    longest record and the last row the row of a shortest one: each is
    the projection of one of the records, and no record is longer than
    the first row or shorter than the last. *)
Theorem save_csv_first_longest_last_shortest (w : World) (records : list SeqRecord)
    (filename : string) (σ σ' : State) (df : DataFrame) :
  sort_contract w →
  save_csv records filename w σ = (Ok df, σ') →
  ∃ top bottom,
    head (df_rows df) = Some top
    ∧ last (df_rows df) = Some bottom
    ∧ (∃ r, r ∈ records ∧ top = to_row r)
    ∧ (∃ r, r ∈ records ∧ bottom = to_row r)
    ∧ ∀ r, r ∈ records → row_length bottom ≤ len_seq r ≤ row_length top.
Proof.
  intros Hsort Hrun.
  assert (Hne : records ≠ []).
  { intros ->. by rewrite save_csv_nil in Hrun. }
  apply save_csv_Ok_inv in Hrun as [-> _]. cbn [df_rows].
  destruct (Hsort (to_row <$> records)) as [Hperm Hsorted].
  set (rows := DataFrame_sort_length_desc w (to_row <$> records)) in *.
  apply Sorted_StronglySorted in Hsorted; [|apply _].
  assert (Hrows : rows ≠ []).
  { intros Hnil. rewrite Hnil in Hperm. symmetry in Hperm.
    apply Permutation_nil_r in Hperm. by destruct records. }
  assert (Horigin : ∀ row, row ∈ rows → ∃ r, r ∈ records ∧ row = to_row r).
  { intros row Hrow. rewrite Hperm in Hrow.
    apply list_elem_of_fmap in Hrow as (r & -> & Hr). by exists r. }
  destruct rows as [|top rows'] eqn:Hrows_eq; [done|].
  destruct (last (top :: rows')) as [bottom|] eqn:Hlast.
  2:{ by apply last_None in Hlast. }
  exists top, bottom. split_and!; [done | done | | |].
  - apply Horigin. by left.
  - apply Horigin. apply last_Some in Hlast as [l' ->].
    apply elem_of_app. right. by left.
  - intros r Hr.
    assert (Hrow : to_row r ∈ top :: rows').
    { rewrite Hperm. by apply list_elem_of_fmap_2. }
    split.
    + by apply (StronglySorted_last_min _ _ Hsorted Hlast (to_row r)).
    + apply StronglySorted_cons in Hsorted as [Htop _].
      apply elem_of_cons in Hrow as [<-|Hrow]; [done|].
      exact (proj1 (Forall_forall (by_length_desc top) rows') Htop (to_row r) Hrow).
Qed.

Lemma save_csv_first_longest_last_shortest_witness :
  ∃ df σ' top bottom,
    save_csv demo_records "taxid_562_filtered.csv" demo_stable (initial_state [])
      = (Ok df, σ')
    ∧ head (df_rows df) = Some top
    ∧ last (df_rows df) = Some bottom
    ∧ (∃ r, r ∈ demo_records ∧ top = to_row r)
    ∧ (∃ r, r ∈ demo_records ∧ bottom = to_row r)
    ∧ ∀ r, r ∈ demo_records → row_length bottom ≤ len_seq r ≤ row_length top.
Proof.
  edestruct (save_csv_first_longest_last_shortest demo_stable demo_records
               "taxid_562_filtered.csv" (initial_state []))
    as (top & bottom & Hhead & Hlast & Htop & Hbottom & Hall);
    [apply demo_stable_contract | reflexivity |].
  eexists _, _, top, bottom. split; [reflexivity|]. by split_and!.
Defined.

(** ** plot_lengths: what is drawn, and what is written *)

Lemma plot_lengths_events w df png_filename σ r σ' :
  df_columns df = table_columns →
  plot_lengths df png_filename w σ = (r, σ') →
  ∃ n : nat,
    trace σ' = trace σ ++
      (EvPlt <$> take n (plot_calls (DataFrame_sort_length_desc w (df_rows df)) png_filename))
    ∧ (r = Ok tt → n = 9%nat).
Proof.
  intros Hcols Hrun. rewrite plot_lengths_plt_seq in Hrun by done.
  destruct (plt_seq_run _ _ _ _ _ Hrun) as (n & Htr & _ & Hok & _).
  exists n. split; [done|]. intros Hr. by rewrite (Hok Hr).
Qed.

Lemma files_written_plot_calls rows png_filename (n : nat) :
  files_written (EvPlt <$> take n (plot_calls rows png_filename))
  = if decide (8 ≤ n)%nat then [png_filename] else [].
Proof.
  unfold plot_calls.
  do 8 (destruct n as [|n]; [reflexivity|]).
  destruct n as [|n]; [reflexivity|].
  rewrite decide_True by lia. rewrite take_ge by (simpl; lia). reflexivity.
Qed.

Lemma fetch_requests_plt (cs : list plt_call) : fetch_requests (EvPlt <$> cs) = [].
Proof. induction cs as [|c cs IH]; [done|]. exact IH. Qed.

(** Every run of [plot_lengths] on a frame with the three columns calls
    [plt.figure]; it goes on to [plt.plot] when that call returns. *)
Lemma plot_lengths_first_calls w df png_filename σ r σ' :
  df_columns df = table_columns →
  plot_lengths df png_filename w σ = (r, σ') →
  ∃ n : nat,
    trace σ' = trace σ ++
      (EvPlt <$> take n (plot_calls (DataFrame_sort_length_desc w (df_rows df)) png_filename))
    ∧ (0 < n)%nat
    ∧ (r = Ok tt → n = 9%nat)
    ∧ (pyplot w (trace σ) (Figure 12 6) = Ok tt → (1 < n)%nat).
Proof.
  intros Hcols Hrun. rewrite plot_lengths_plt_seq in Hrun by done.
  destruct (plt_seq_run _ _ _ _ _ Hrun) as (n & Htr & _ & Hok & Herr & _).
  exists n. split; [done|].
  destruct r as [[]|e].
  - rewrite (Hok eq_refl). simpl. split_and!; [lia | done | lia].
  - destruct (Herr e eq_refl) as (c & Hlook & Hpos & Hraise).
    split_and!; [done | done |].
    intros Hfig. destruct n as [|[|n]]; [lia | | lia].
    unfold plot_calls in Hlook. simpl in Hlook, Hraise.
    rewrite app_nil_r in Hraise. injection Hlook as <-. congruence.
Qed.

Lemma plot_calls_head rows png_filename (n : nat) :
  (0 < n)%nat →
  head (EvPlt <$> take n (plot_calls rows png_filename)) = Some (EvPlt (Figure 12 6)).
Proof. intros Hn. destruct n as [|n]; [lia|]. reflexivity. Qed.

Lemma plot_calls_second rows png_filename (n : nat) :
  (1 < n)%nat →
  (EvPlt <$> take n (plot_calls rows png_filename)) !! 1%nat
  = Some (EvPlt (Plot (row_accession <$> rows) (row_length <$> rows) "o")).
Proof. intros Hn. destruct n as [|[|n]]; [lia..|]. reflexivity. Qed.

(** X13. What [plot_lengths] draws for a table built by [save_csv]:
    every run opens the figure first; when [plt.figure] returns, the
    next call is [plt.plot] with the accessions and lengths of the
    sorted rows and the marker "o"; in any [plt.plot] call of the run
    the y values are in non-increasing order and there is one x label
    and one y value per row of the table; and the only file it can ask
    for is [png_filename], which it has asked for when it returns. *)
Theorem plot_lengths_series (w : World) (df : DataFrame) (png_filename : string)
    (σ : State) :
  sort_contract w →
  df_columns df = table_columns →
  let plotted := DataFrame_sort_length_desc w (df_rows df) in
  ∃ evs, trace (plot_lengths df png_filename w σ).2 = trace σ ++ evs
    ∧ head evs = Some (EvPlt (Figure 12 6))
    ∧ (pyplot w (trace σ) (Figure 12 6) = Ok tt →
       evs !! 1%nat
       = Some (EvPlt (Plot (row_accession <$> plotted) (row_length <$> plotted) "o")))
    ∧ (∀ xs ys marker, EvPlt (Plot xs ys marker) ∈ evs →
         Sorted Z_desc ys
         ∧ length xs = length (df_rows df)
         ∧ length ys = length (df_rows df)
         ∧ marker = "o")
    ∧ files_written evs `prefix_of` [png_filename]
    ∧ ((plot_lengths df png_filename w σ).1 = Ok tt →
       files_written evs = [png_filename]).
Proof.
  intros Hsort Hcols plotted.
  destruct (plot_lengths df png_filename w σ) as [r σ'] eqn:Hrun.
  destruct (plot_lengths_first_calls _ _ _ _ _ _ Hcols Hrun)
    as (n & Htr & Hpos & Hok & Hfig).
  destruct (Hsort (df_rows df)) as [Hperm Hsorted].
  fold plotted in Htr, Hperm, Hsorted.
  exists (EvPlt <$> take n (plot_calls plotted png_filename)). cbn [fst snd].
  split_and!.
  - done.
  - by apply plot_calls_head.
  - intros Hret. apply plot_calls_second. auto.
  - intros xs ys marker Hin. apply (list_elem_of_fmap_inj EvPlt) in Hin.
    apply subseteq_take in Hin. unfold plot_calls in Hin. elem_of_cases Hin.
    simplify_eq. rewrite !length_fmap.
    pose proof (Permutation_length Hperm) as Hlen.
    split_and!; try done.
    by apply (Sorted_fmap row_length by_length_desc Z_desc).
  - rewrite files_written_plot_calls. case_decide; [done | apply prefix_nil].
  - intros Hr. rewrite (Hok Hr). apply files_written_plot_calls.
Qed.

Lemma plot_lengths_series_witness :
  ∃ evs,
    trace (plot_lengths demo_table "taxid_562_plot.png" demo_stable (initial_state [])).2
    = evs
    ∧ head evs = Some (EvPlt (Figure 12 6))
    ∧ files_written evs = ["taxid_562_plot.png"].
Proof.
  destruct (plot_lengths_series demo_stable demo_table "taxid_562_plot.png"
              (initial_state []) demo_stable_contract eq_refl)
    as (evs & Htr & Hhead & _ & _ & _ & Hfiles).
  exists evs. split_and!; [exact Htr | exact Hhead |]. apply Hfiles. reflexivity.
Defined.

(** X14. A frame without a "length" column (the empty frame that
    [pd.DataFrame([])] gives) cannot be plotted: [plot_lengths] raises
    [KeyError] at the sort, before a figure is opened, and leaves the
    state and the trace as they were. *)
Theorem plot_lengths_missing_column (w : World) (df : DataFrame)
    (png_filename : string) (σ : State) :
  "length" ∉ df_columns df →
  plot_lengths df png_filename w σ = (Raise (Exn KeyError "length"), σ).
Proof.
  intros Hcol. unfold plot_lengths. rewrite bind_unfold.
  unfold sort_values_length_desc. by rewrite bool_decide_eq_false_2.
Qed.

Lemma plot_lengths_missing_column_witness :
  plot_lengths (pd_DataFrame []) "taxid_562_plot.png" demo_stable (initial_state [])
  = (Raise (Exn KeyError "length"), initial_state []).
Proof.
  apply (plot_lengths_missing_column demo_stable (pd_DataFrame [])).
  simpl. apply not_elem_of_nil.
Defined.

(** ** main: every way a run can go *)

Lemma search_quiet taxid : emits quiet (search taxid).
Proof. unfold search, search_body. emits_steps; done. Qed.

Lemma Forall_quiet evs :
  Forall quiet evs → files_written evs = [] ∧ fetch_requests evs = [].
Proof.
  unfold files_written, fetch_requests.
  induction 1 as [|ev evs [Hf Hr] _ [IHf IHr]]; [done|]. simpl.
  by rewrite Hf, Hr.
Qed.

Lemma fetch_requests_app tr1 tr2 :
  fetch_requests (tr1 ++ tr2) = fetch_requests tr1 ++ fetch_requests tr2.
Proof. apply omap_app. Qed.

Lemma Forall_prompt_quiet evs : Forall is_prompt evs → Forall quiet evs.
Proof. intros H. eapply Forall_impl; [exact H|]. by intros []. Qed.

(** Either [main] fails while it reads its five inputs, having done
    nothing but prompt, or the inputs are there and the bounds are
    integers. *)
Lemma main_cases w σ :
  (∃ e σ' evs, main w σ = (Raise e, σ')
     ∧ trace σ' = trace σ ++ evs ∧ Forall is_prompt evs)
  ∨ (∃ email api_key taxid smin smax rest lo hi,
       stdin σ = email :: api_key :: taxid :: smin :: smax :: rest
       ∧ int_of_str w smin = Ok lo
       ∧ int_of_str w smax = Ok hi).
Proof.
  destruct σ as [s en lines tr]. cbn [stdin trace].
  destruct lines as [|l1 [|l2 [|l3 [|l4 lines]]]].
  1-4: left; eexists _, _, _; split; [reflexivity|]; cbn [trace log];
       rewrite <- ?(assoc_L (++)); cbn [app];
       split; [reflexivity | by repeat constructor].
  destruct (int_of_str w l4) as [lo|e] eqn:Hlo.
  2:{ left. eexists e, _, _. split.
      - unfold main. do 3 (erewrite bind_Ok by (by apply input_run)).
        rewrite bind_unfold. erewrite bind_Ok by (by apply input_run).
        rewrite int_run. cbn [py_int]. rewrite Hlo. reflexivity.
      - cbn [trace self entrez stdin]. rewrite <- ?(assoc_L (++)). cbn [app].
        split; [reflexivity | by repeat constructor]. }
  destruct lines as [|l5 rest].
  { left. eexists _, _, _. split.
    - unfold main. do 3 (erewrite bind_Ok by (by apply input_run)).
      rewrite bind_unfold. erewrite bind_Ok by (by apply input_run).
      rewrite int_run. cbn [py_int]. rewrite Hlo. reflexivity.
    - cbn [trace self entrez stdin log]. rewrite <- ?(assoc_L (++)). cbn [app].
      split; [reflexivity | by repeat constructor]. }
  destruct (int_of_str w l5) as [hi|e] eqn:Hhi.
  2:{ left. eexists e, _, _. split.
      - unfold main. do 3 (erewrite bind_Ok by (by apply input_run)).
        rewrite bind_unfold. erewrite bind_Ok by (by apply input_run).
        rewrite int_run. cbn [py_int]. rewrite Hlo.
        rewrite bind_unfold. erewrite bind_Ok by (by apply input_run).
        rewrite int_run. cbn [py_int]. rewrite Hhi. reflexivity.
      - cbn [trace self entrez stdin]. rewrite <- ?(assoc_L (++)). cbn [app].
        split; [reflexivity | by repeat constructor]. }
  right. by eexists l1, l2, l3, l4, l5, rest, lo, hi.
Qed.

Lemma fetch_records_run w σ r σ' :
  fetch_records 1000 w σ = (r, σ') →
  ∃ evs, trace σ' = trace σ ++ evs
    ∧ files_written evs = []
    ∧ fetch_requests evs `prefix_of` [(0, 500); (500, 500)]
    ∧ (∀ raw, r = Ok raw → fetch_requests evs = [(0, 500); (500, 500)]).
Proof.
  intros Hrun. unfold fetch_records in Hrun.
  destruct (fetch_loop_requests _ _ _ _ _ _ _ Hrun)
    as (evs & Htr & _ & Hnf & Hpre & Hall).
  rewrite py_range_batch_schedule in Hpre, Hall.
  assert (Hplan : batch_schedule 1000 = [(0, 500); (500, 500)]) by reflexivity.
  rewrite Hplan in Hpre, Hall.
  exists evs. split_and!; [done | by apply Forall_writes_no_file | done..].
Qed.

(** What a run of [main] after its inputs adds to the trace: the
    files it asks for are a prefix of "the CSV, then the image", its
    nucleotide requests a prefix of "(0,500), then (500,500)", and when
    it returns it has asked for no file or for both. *)
Lemma main_after_inputs_run w taxid lo hi σ r σ' :
  main_after_inputs taxid lo hi w σ = (r, σ') →
  ∃ evs, trace σ' = trace σ ++ evs
    ∧ files_written evs `prefix_of` [csv_name taxid; png_name taxid]
    ∧ fetch_requests evs `prefix_of` [(0, 500); (500, 500)]
    ∧ (r = Ok tt →
       files_written evs = []
       ∨ (files_written evs = [csv_name taxid; png_name taxid]
          ∧ fetch_requests evs = [(0, 500); (500, 500)])).
Proof.
  unfold main_after_inputs, csv_name, png_name. intros Hrun.
  rewrite bind_unfold in Hrun.
  destruct (search taxid w σ) as [[count|e] σs] eqn:Hs;
    destruct (search_quiet _ _ _ _ _ Hs) as (evs1 & Htr1 & Hq1);
    destruct (Forall_quiet _ Hq1) as [Hf1 Hr1].
  2:{ simplify_eq. exists evs1. rewrite Hf1, Hr1.
      split_and!; [done | apply prefix_nil | apply prefix_nil | by left]. }
  case_bool_decide as Hcount.
  { rewrite print_run in Hrun. simplify_eq.
    exists (evs1 ++ [EvPrint [Lit "No results."]]). cbn [log trace].
    rewrite files_written_app, fetch_requests_app, Hf1, Hr1, Htr1.
    split_and!; [by rewrite (assoc_L (++)) | apply prefix_nil | apply prefix_nil | by left]. }
  rewrite bind_unfold, print_run in Hrun. fold (fetching_message count) in Hrun.
  rewrite bind_unfold in Hrun.
  destruct (fetch_records 1000 w (log (fetching_message count) σs))
    as [[raw|e] σf] eqn:Hfetch;
    destruct (fetch_records_run _ _ _ _ Hfetch) as (evs2 & Htr2 & Hf2 & Hr2 & Hall2);
    cbn [log trace] in Htr2.
  2:{ simplify_eq. exists (evs1 ++ [fetching_message count] ++ evs2).
      rewrite !files_written_app, !fetch_requests_app, Hf1, Hr1, Hf2, Htr2, Htr1.
      split_and!; [by rewrite <- !(assoc_L (++)) | apply prefix_nil | done | by left]. }
  specialize (Hall2 raw eq_refl). cbn zeta in Hrun.
  destruct (filter_records raw lo hi) as [|r0 filtered] eqn:Hfilter.
  { rewrite print_run in Hrun. simplify_eq.
    exists (evs1 ++ [fetching_message count] ++ evs2
            ++ [EvPrint [Lit "No records match length criteria."]]).
    cbn [log trace].
    rewrite !files_written_app, !fetch_requests_app, Hf1, Hr1, Hf2, Hall2, Htr2, Htr1.
    split_and!; [by rewrite <- !(assoc_L (++)) | apply prefix_nil | done | by left]. }
  rewrite bind_unfold in Hrun.
  destruct (save_csv (r0 :: filtered) _ w σf) as [[df|e] σc] eqn:Hcsv.
  2:{ rewrite save_csv_run in Hcsv by done. cbn zeta in Hcsv.
      simplify_eq. eexists (evs1 ++ [fetching_message count] ++ evs2 ++ [EvToCsv _ _ _]).
      cbn [log trace].
      rewrite !files_written_app, !fetch_requests_app, Hf1, Hr1, Hf2, Hall2, Htr2, Htr1.
      split_and!; [by rewrite <- !(assoc_L (++)) | simpl; close_prefix | done | done]. }
  apply save_csv_Ok_inv in Hcsv as [Hdf ->].
  assert (Hcols : df_columns df = table_columns) by by rewrite Hdf.
  rewrite bind_unfold in Hrun.
  destruct (plot_lengths df _ w _) as [[[]|e] σp] eqn:Hplot;
    destruct (plot_lengths_events _ _ _ _ _ _ Hcols Hplot) as (n & Htrp & Hok);
    cbn [log trace] in Htrp.
  2:{ simplify_eq.
      eexists (evs1 ++ [fetching_message count] ++ evs2 ++ [EvToCsv _ _ _]
               ++ (EvPlt <$> take n (plot_calls _ _))).
      rewrite Htrp, Htr2, Htr1.
      rewrite !files_written_app, !fetch_requests_app, Hf1, Hr1, Hf2, Hall2.
      rewrite files_written_plot_calls, fetch_requests_plt.
      split_and!; [by rewrite <- !(assoc_L (++)) | | done | done].
      case_decide; simpl; close_prefix. }
  specialize (Hok eq_refl). subst n.
  do 2 (rewrite ?bind_unfold, print_run in Hrun). simplify_eq.
  eexists (evs1 ++ [fetching_message count] ++ evs2 ++ [EvToCsv _ _ _]
           ++ (EvPlt <$> take 9 (plot_calls _ _)) ++ [EvPrint _; EvPrint _]).
  cbn [log trace]. rewrite Htrp, Htr2, Htr1.
  rewrite !files_written_app, !fetch_requests_app, Hf1, Hr1, Hf2, Hall2.
  rewrite files_written_plot_calls, fetch_requests_plt.
  split_and!; [by rewrite <- !(assoc_L (++)) | done | done | by right].
Qed.

(** X15. No run of [main] asks for any file but the two outputs, and
    never for the image before the CSV: the files requested are a prefix
    of "taxid_<ID>_filtered.csv, taxid_<ID>_plot.png" for the ID typed
    as third input (none at all when there is no third input), and a
    run that returns normally has asked for none of them or for both. *)
Theorem main_files_invariant (w : World) (σ : State) :
  ∃ evs, trace (main w σ).2 = trace σ ++ evs
    ∧ files_written evs
        `prefix_of` match stdin σ !! 2%nat with
                    | Some taxid => [csv_name taxid; png_name taxid]
                    | None => []
                    end
    ∧ ((main w σ).1 = Ok tt →
       files_written evs = []
       ∨ ∃ taxid, stdin σ !! 2%nat = Some taxid
           ∧ files_written evs = [csv_name taxid; png_name taxid]).
Proof.
  destruct (main_cases w σ) as
    [(e & σ' & evs & Hmain & Htr & Hprompts)
    |(email & api_key & taxid & smin & smax & rest & lo & hi & Hin & Hlo & Hhi)].
  - exists evs. rewrite Hmain. cbn [fst snd].
    destruct (Forall_quiet _ (Forall_prompt_quiet _ Hprompts)) as [-> _].
    split_and!; [done | apply prefix_nil | done].
  - rewrite (main_inputs _ _ _ _ _ _ _ _ _ _ Hin Hlo Hhi), Hin. cbn [lookup list_lookup].
    destruct (main_after_inputs taxid lo hi w _) as [r σ'] eqn:Hrun.
    destruct (main_after_inputs_run _ _ _ _ _ _ _ Hrun) as (evs & Htr & Hfiles & _ & Hok).
    exists (prompts ++ evs). cbn [fst snd state_after_inputs trace] in *.
    rewrite files_written_app. change (files_written prompts) with (@nil string).
    split_and!; [by rewrite Htr, (assoc_L (++)) | done |].
    intros Hr. destruct (Hok Hr) as [Hnone|[Hboth _]]; [by left|].
    right. by exists taxid.
Qed.

(** X16. [main] never asks the service for more than two batches, and
    always for the same ones: the nucleotide requests of any run are a
    prefix of (0,500), (500,500), whatever count [search] reported; a run
    that wrote its two files has issued both. *)
Theorem main_fetch_plan (w : World) (σ : State) :
  ∃ evs, trace (main w σ).2 = trace σ ++ evs
    ∧ fetch_requests evs `prefix_of` [(0, 500); (500, 500)]
    ∧ (files_written evs ≠ [] → (main w σ).1 = Ok tt →
       fetch_requests evs = [(0, 500); (500, 500)]).
Proof.
  destruct (main_cases w σ) as
    [(e & σ' & evs & Hmain & Htr & Hprompts)
    |(email & api_key & taxid & smin & smax & rest & lo & hi & Hin & Hlo & Hhi)].
  - exists evs. rewrite Hmain. cbn [fst snd].
    destruct (Forall_quiet _ (Forall_prompt_quiet _ Hprompts)) as [_ ->].
    split_and!; [done | apply prefix_nil | done].
  - rewrite (main_inputs _ _ _ _ _ _ _ _ _ _ Hin Hlo Hhi).
    destruct (main_after_inputs taxid lo hi w _) as [r σ'] eqn:Hrun.
    destruct (main_after_inputs_run _ _ _ _ _ _ _ Hrun) as (evs & Htr & _ & Hreq & Hok).
    exists (prompts ++ evs). cbn [fst snd state_after_inputs trace] in *.
    rewrite files_written_app, fetch_requests_app.
    change (files_written prompts) with (@nil string).
    change (fetch_requests prompts) with (@nil (Z * Z)).
    split_and!; [by rewrite Htr, (assoc_L (++)) | done |].
    intros Hfiles Hr. by destruct (Hok Hr) as [Hnone|[_ Hboth]].
Qed.

(** X17. With fewer than five lines on standard input [main] raises
    before it constructs the retriever: it has only prompted, so no
    request went to the service and no file was asked for. *)
Theorem main_short_stdin (w : World) (σ : State) :
  (length (stdin σ) < 5)%nat →
  ∃ e σ' evs, main w σ = (Raise e, σ')
    ∧ trace σ' = trace σ ++ evs
    ∧ Forall is_prompt evs
    ∧ self σ' = self σ ∧ entrez σ' = entrez σ.
Proof.
  intros Hshort. destruct σ as [s en lines tr]. cbn [stdin trace self entrez] in *.
  destruct lines as [|l1 [|l2 [|l3 [|l4 [|l5 lines]]]]]; simpl in Hshort; try lia.
  1-4: eexists _, _, _; split; [reflexivity|]; cbn [trace log self entrez];
       rewrite <- ?(assoc_L (++)); cbn [app];
       split_and!; [reflexivity | by repeat constructor | done | done].
  destruct (int_of_str w l4) as [lo|e] eqn:Hlo.
  - eexists _, _, _. split.
    + unfold main. do 3 (erewrite bind_Ok by (by apply input_run)).
      rewrite bind_unfold. erewrite bind_Ok by (by apply input_run).
      rewrite int_run. cbn [py_int]. rewrite Hlo. reflexivity.
    + cbn [trace self entrez stdin log]. rewrite <- ?(assoc_L (++)). cbn [app].
      split_and!; [reflexivity | by repeat constructor | done | done].
  - eexists e, _, _. split.
    + unfold main. do 3 (erewrite bind_Ok by (by apply input_run)).
      rewrite bind_unfold. erewrite bind_Ok by (by apply input_run).
      rewrite int_run. cbn [py_int]. rewrite Hlo. reflexivity.
    + cbn [trace self entrez stdin]. rewrite <- ?(assoc_L (++)). cbn [app].
      split_and!; [reflexivity | by repeat constructor | done | done].
Qed.

Lemma main_short_stdin_witness :
  ∃ e σ' evs,
    main demo_stable (initial_state ["a@b.org"; "k"; "562"]) = (Raise e, σ')
    ∧ trace σ' = evs
    ∧ Forall is_prompt evs.
Proof.
  destruct (main_short_stdin demo_stable (initial_state ["a@b.org"; "k"; "562"]))
    as (e & σ' & evs & Hmain & Htr & Hprompts & _); [simpl; lia|].
  by exists e, σ', evs.
Defined.

(** X18. The length bounds are not validated: when [int()] rejects the
    minimum, [main] raises that error after four prompts, and when it
    rejects the maximum, after five; in both cases before the retriever
    is constructed and before any call to the service. *)
Theorem main_rejects_bad_bounds (w : World) (σ : State)
    (email api_key taxid smin smax : string) (rest : list string) (e : exn) :
  stdin σ = email :: api_key :: taxid :: smin :: smax :: rest →
  (int_of_str w smin = Raise e →
     main w σ = (Raise e, mkState (self σ) (entrez σ) (smax :: rest)
                            (trace σ ++ take 4 prompts)))
  ∧ (∀ lo, int_of_str w smin = Ok lo → int_of_str w smax = Raise e →
     main w σ = (Raise e, mkState (self σ) (entrez σ) rest (trace σ ++ prompts))).
Proof.
  intros Hin. split.
  - intros Hlo. unfold main. do 3 (erewrite bind_Ok by (by apply input_run)).
    rewrite bind_unfold. erewrite bind_Ok by (by apply input_run).
    rewrite int_run. cbn [py_int]. rewrite Hlo.
    cbn [trace self entrez stdin]. by rewrite <- !(assoc_L (++)).
  - intros lo Hlo Hhi. unfold main. do 3 (erewrite bind_Ok by (by apply input_run)).
    rewrite bind_unfold. erewrite bind_Ok by (by apply input_run).
    rewrite int_run. cbn [py_int]. rewrite Hlo.
    rewrite bind_unfold. erewrite bind_Ok by (by apply input_run).
    rewrite int_run. cbn [py_int]. rewrite Hhi.
    cbn [trace self entrez stdin]. by rewrite <- !(assoc_L (++)).
Qed.

Lemma main_rejects_bad_bounds_witness :
  (main demo_stable (initial_state (demo_inputs "5" "fifteen"))).1
  = Raise (Exn ValueError "invalid literal for int() with base 10: 'fifteen'")
  ∧ network_requests
      (trace (main demo_stable (initial_state (demo_inputs "5" "fifteen"))).2) = [].
Proof.
  destruct (main_rejects_bad_bounds demo_stable
              (initial_state (demo_inputs "5" "fifteen"))
              "a@b.org" "k" "562" "5" "fifteen" []
              (Exn ValueError "invalid literal for int() with base 10: 'fifteen'")
              eq_refl) as [_ Hmax].
  rewrite (Hmax 5 eq_refl eq_refl). split; reflexivity.
Defined.

(** X19. The third terminal state of [main]: when [search] returns a
    non-zero count, the fetch returns, some record is within the
    bounds, and [save_csv] and [plot_lengths] return, then [main] returns
    normally; after the plot it prints "Saved <n> records to <csv>"
    with [n] the number of filtered records and "Plot saved as <png>",
    and the files it asked for are exactly the CSV and then the image. *)
Theorem main_writes_both_files (w : World) (σ σs σf σc σp : State)
    (email api_key taxid smin smax : string) (rest : list string) (lo hi : Z)
    (count : Z) (raw_records : list SeqRecord) (df : DataFrame) :
  stdin σ = email :: api_key :: taxid :: smin :: smax :: rest →
  int_of_str w smin = Ok lo →
  int_of_str w smax = Ok hi →
  search taxid w (state_after_inputs σ email api_key rest) = (Ok count, σs) →
  count ≠ 0 →
  fetch_records 1000 w (log (fetching_message count) σs) = (Ok raw_records, σf) →
  filter_records raw_records lo hi ≠ [] →
  save_csv (filter_records raw_records lo hi) (csv_name taxid) w σf = (Ok df, σc) →
  plot_lengths df (png_name taxid) w σc = (Ok tt, σp) →
  main w σ =
    (Ok tt,
     log (EvPrint [Lit "Plot saved as "; Lit (png_name taxid)])
       (log (EvPrint [Lit "Saved ";
                      Val (PInt (Z.of_nat (length (filter_records raw_records lo hi))));
                      Lit " records to "; Lit (csv_name taxid)]) σp))
  ∧ ∃ evs, trace (main w σ).2 = trace σ ++ evs
      ∧ files_written evs = [csv_name taxid; png_name taxid].
Proof.
  intros Hin Hlo Hhi Hsearch Hcount Hfetch Hne Hcsv Hplot.
  assert (Hmain : main w σ =
    (Ok tt,
     log (EvPrint [Lit "Plot saved as "; Lit (png_name taxid)])
       (log (EvPrint [Lit "Saved ";
                      Val (PInt (Z.of_nat (length (filter_records raw_records lo hi))));
                      Lit " records to "; Lit (csv_name taxid)]) σp))).
  { rewrite (main_inputs _ _ _ _ _ _ _ _ _ _ Hin Hlo Hhi).
    unfold main_after_inputs. rewrite (bind_Ok _ _ _ _ _ _ Hsearch).
    rewrite bool_decide_eq_false_2 by done.
    rewrite bind_unfold, print_run. fold (fetching_message count).
    rewrite (bind_Ok _ _ _ _ _ _ Hfetch). cbn zeta.
    fold (csv_name taxid) (png_name taxid).
    destruct (filter_records raw_records lo hi) as [|r0 filtered] eqn:Hfilter; [done|].
    rewrite (bind_Ok _ _ _ _ _ _ Hcsv), (bind_Ok _ _ _ _ _ _ Hplot).
    by rewrite bind_unfold, print_run, print_run. }
  split; [exact Hmain|]. rewrite Hmain. cbn [snd log trace].
  destruct (search_quiet _ _ _ _ _ Hsearch) as (evs1 & Htr1 & Hq1).
  destruct (Forall_quiet _ Hq1) as [Hf1 _].
  destruct (fetch_records_run _ _ _ _ Hfetch) as (evs2 & Htr2 & Hf2 & _).
  apply save_csv_Ok_inv in Hcsv as [Hdf ->].
  assert (Hcols : df_columns df = table_columns) by by rewrite Hdf.
  destruct (plot_lengths_events _ _ _ _ _ _ Hcols Hplot) as (n & Htrp & Hok).
  specialize (Hok eq_refl). subst n. cbn [log trace state_after_inputs] in *.
  eexists (prompts ++ evs1 ++ [fetching_message count] ++ evs2 ++ [EvToCsv _ _ _]
           ++ (EvPlt <$> take 9 (plot_calls _ _)) ++ [EvPrint _; EvPrint _]).
  rewrite Htrp, Htr2, Htr1.
  rewrite !files_written_app, Hf1, Hf2, files_written_plot_calls.
  split; [by rewrite <- !(assoc_L (++)) | done].
Qed.

Lemma main_writes_both_files_witness :
  (main demo_stable (initial_state (demo_inputs "5" "15"))).1 = Ok tt
  ∧ ∃ evs,
      trace (main demo_stable (initial_state (demo_inputs "5" "15"))).2 = evs
      ∧ files_written evs = ["taxid_562_filtered.csv"; "taxid_562_plot.png"].
Proof.
  edestruct (main_writes_both_files demo_stable (initial_state (demo_inputs "5" "15")))
    as [Hmain (evs & Htr & Hfiles)];
    [ reflexivity | reflexivity | reflexivity | vm_compute; reflexivity | done
    | vm_compute; reflexivity | vm_compute; discriminate
    | vm_compute; reflexivity | vm_compute; reflexivity |].
  split; [by rewrite Hmain|]. exists evs. split; [exact Htr | exact Hfiles].
Defined.

(** X20. An error while fetching is fatal to the run: when [search]
    returned a non-zero count and [fetch_records] raises [e], [main]
    raises [e] at once, prints nothing more, and has asked for no
    file. *)
Theorem main_fetch_error_fatal (w : World) (σ σs σf : State)
    (email api_key taxid smin smax : string) (rest : list string) (lo hi : Z)
    (count : Z) (e : exn) :
  stdin σ = email :: api_key :: taxid :: smin :: smax :: rest →
  int_of_str w smin = Ok lo →
  int_of_str w smax = Ok hi →
  search taxid w (state_after_inputs σ email api_key rest) = (Ok count, σs) →
  count ≠ 0 →
  fetch_records 1000 w (log (fetching_message count) σs) = (Raise e, σf) →
  main w σ = (Raise e, σf)
  ∧ ∃ evs, trace (main w σ).2 = trace σ ++ evs ∧ files_written evs = [].
Proof.
  intros Hin Hlo Hhi Hsearch Hcount Hfetch.
  assert (Hmain : main w σ = (Raise e, σf)).
  { rewrite (main_inputs _ _ _ _ _ _ _ _ _ _ Hin Hlo Hhi).
    unfold main_after_inputs. rewrite (bind_Ok _ _ _ _ _ _ Hsearch).
    rewrite bool_decide_eq_false_2 by done.
    rewrite bind_unfold, print_run. fold (fetching_message count).
    by rewrite (bind_Raise _ _ _ _ _ _ Hfetch). }
  split; [exact Hmain|]. rewrite Hmain. cbn [snd].
  destruct (search_quiet _ _ _ _ _ Hsearch) as (evs1 & Htr1 & Hq1).
  destruct (Forall_quiet _ Hq1) as [Hf1 _].
  destruct (fetch_records_run _ _ _ _ Hfetch) as (evs2 & Htr2 & Hf2 & _).
  cbn [log trace state_after_inputs] in *.
  exists (prompts ++ evs1 ++ [fetching_message count] ++ evs2).
  rewrite Htr2, Htr1, !files_written_app, Hf1, Hf2.
  split; [by rewrite <- !(assoc_L (++)) | done].
Qed.

Lemma main_fetch_error_fatal_witness :
  (main demo_second_batch_fails (initial_state (demo_inputs "5" "15"))).1
  = Raise (Exn URLError "<urlopen error timed out>")
  ∧ ∃ evs,
      trace (main demo_second_batch_fails (initial_state (demo_inputs "5" "15"))).2
      = evs
      ∧ files_written evs = [].
Proof.
  edestruct (main_fetch_error_fatal demo_second_batch_fails
               (initial_state (demo_inputs "5" "15")))
    as [Hmain (evs & Htr & Hfiles)];
    [ reflexivity | reflexivity | reflexivity | vm_compute; reflexivity | done
    | vm_compute; reflexivity |].
  split; [by rewrite Hmain|]. exists evs. split; [exact Htr | exact Hfiles].
Defined.

(** X21. The two outputs are not written atomically: when the CSV has
    been written and [plot_lengths] then raises [e], [main] raises [e]
    and stops in the state the plot left, without its two closing
    messages; the CSV is the first file the run asked for. *)
Theorem main_plot_failure_leaves_csv (w : World) (σ σs σf σc σp : State)
    (email api_key taxid smin smax : string) (rest : list string) (lo hi : Z)
    (count : Z) (raw_records : list SeqRecord) (df : DataFrame) (e : exn) :
  stdin σ = email :: api_key :: taxid :: smin :: smax :: rest →
  int_of_str w smin = Ok lo →
  int_of_str w smax = Ok hi →
  search taxid w (state_after_inputs σ email api_key rest) = (Ok count, σs) →
  count ≠ 0 →
  fetch_records 1000 w (log (fetching_message count) σs) = (Ok raw_records, σf) →
  filter_records raw_records lo hi ≠ [] →
  save_csv (filter_records raw_records lo hi) (csv_name taxid) w σf = (Ok df, σc) →
  plot_lengths df (png_name taxid) w σc = (Raise e, σp) →
  main w σ = (Raise e, σp)
  ∧ ∃ evs, trace (main w σ).2 = trace σ ++ evs
      ∧ head (files_written evs) = Some (csv_name taxid).
Proof.
  intros Hin Hlo Hhi Hsearch Hcount Hfetch Hne Hcsv Hplot.
  assert (Hmain : main w σ = (Raise e, σp)).
  { rewrite (main_inputs _ _ _ _ _ _ _ _ _ _ Hin Hlo Hhi).
    unfold main_after_inputs. rewrite (bind_Ok _ _ _ _ _ _ Hsearch).
    rewrite bool_decide_eq_false_2 by done.
    rewrite bind_unfold, print_run. fold (fetching_message count).
    rewrite (bind_Ok _ _ _ _ _ _ Hfetch). cbn zeta.
    fold (csv_name taxid) (png_name taxid).
    destruct (filter_records raw_records lo hi) as [|r0 filtered] eqn:Hfilter; [done|].
    by rewrite (bind_Ok _ _ _ _ _ _ Hcsv), (bind_Raise _ _ _ _ _ _ Hplot). }
  split; [exact Hmain|]. rewrite Hmain. cbn [snd].
  destruct (search_quiet _ _ _ _ _ Hsearch) as (evs1 & Htr1 & Hq1).
  destruct (Forall_quiet _ Hq1) as [Hf1 _].
  destruct (fetch_records_run _ _ _ _ Hfetch) as (evs2 & Htr2 & Hf2 & _).
  apply save_csv_Ok_inv in Hcsv as [Hdf ->].
  assert (Hcols : df_columns df = table_columns) by by rewrite Hdf.
  destruct (plot_lengths_events _ _ _ _ _ _ Hcols Hplot) as (n & Htrp & _).
  cbn [log trace state_after_inputs] in *.
  eexists (prompts ++ evs1 ++ [fetching_message count] ++ evs2 ++ [EvToCsv _ _ _]
           ++ (EvPlt <$> take n (plot_calls _ _))).
  rewrite Htrp, Htr2, Htr1. split.
  - by rewrite <- !(assoc_L (++)).
  - by rewrite !files_written_app, Hf1, Hf2.
Qed.

Lemma main_plot_failure_leaves_csv_witness :
  (main demo_disk_full (initial_state (demo_inputs "5" "15"))).1
  = Raise (Exn OSError "[Errno 28] No space left on device")
  ∧ ∃ evs,
      trace (main demo_disk_full (initial_state (demo_inputs "5" "15"))).2 = evs
      ∧ head (files_written evs) = Some "taxid_562_filtered.csv".
Proof.
  edestruct (main_plot_failure_leaves_csv demo_disk_full
               (initial_state (demo_inputs "5" "15")))
    as [Hmain (evs & Htr & Hfiles)];
    [ reflexivity | reflexivity | reflexivity | vm_compute; reflexivity | done
    | vm_compute; reflexivity | vm_compute; discriminate
    | vm_compute; reflexivity | vm_compute; reflexivity |].
  split; [by rewrite Hmain|]. exists evs. split; [exact Htr | exact Hfiles].
Defined.

(** ** The configuration set by the constructor *)

Lemma frame_silent {A} (m : M A) :
  (∀ w σ, entrez (m w σ).2 = entrez σ ∧ stdin (m w σ).2 = stdin σ) → frame m.
Proof. intros Hm w σ r σ' Hrun. specialize (Hm w σ). by rewrite Hrun in Hm. Qed.

Lemma frame_ret {A} (a : A) : frame (mret a).
Proof. by apply frame_silent. Qed.

Lemma frame_lift {A} (r : result A) : frame (lift r).
Proof. by apply frame_silent. Qed.

Lemma frame_set_self f : frame (set_self f).
Proof. by apply frame_silent. Qed.

Lemma frame_getattr name field : frame (getattr name field).
Proof.
  apply frame_silent. intros w σ. unfold getattr. by destruct (field (self σ)).
Qed.

Lemma frame_int v : frame (int v).
Proof. by apply frame_silent. Qed.

Lemma frame_call {A} ev (oracle : World → list event → result A) :
  frame (call ev oracle).
Proof. by apply frame_silent. Qed.

Lemma frame_print line : frame (print line).
Proof. by apply frame_silent. Qed.

Lemma frame_sort_values df : frame (sort_values_length_desc df).
Proof.
  apply frame_silent. intros w σ. unfold sort_values_length_desc.
  by case_bool_decide.
Qed.

Lemma frame_column {A} df name (field : Row → A) : frame (column df name field).
Proof. apply frame_silent. intros w σ. unfold column. by case_bool_decide. Qed.

Lemma frame_bind {A B} (m : M A) (k : A → M B) :
  frame m → (∀ a, frame (k a)) → frame (m ≫= k).
Proof.
  intros Hm Hk w σ r σ' Hrun. rewrite bind_unfold in Hrun.
  destruct (m w σ) as [[a|e] σ1] eqn:Hm1.
  - destruct (Hm _ _ _ _ Hm1) as [He1 Hs1].
    destruct (Hk a _ _ _ _ Hrun) as [He2 Hs2]. split; congruence.
  - simplify_eq. by apply (Hm _ _ _ _ Hm1).
Qed.

Lemma frame_try_except {A} (body : M A) handler :
  frame body → (∀ e, frame (handler e)) → frame (try_except body handler).
Proof.
  intros Hm Hk w σ r σ' Hrun. unfold try_except in Hrun.
  destruct (body w σ) as [[a|e] σ1] eqn:Hm1.
  - simplify_eq. by apply (Hm _ _ _ _ Hm1).
  - destruct (Hm _ _ _ _ Hm1) as [He1 Hs1].
    destruct (is_Exception (exn_cls e)).
    + destruct (Hk e _ _ _ _ Hrun) as [He2 Hs2]. split; congruence.
    + by simplify_eq.
Qed.

Create HintDb frame discriminated.
#[global] Hint Resolve frame_ret frame_lift frame_set_self frame_getattr frame_int
  frame_call frame_print frame_sort_values frame_column : frame.

Ltac frame_steps :=
  repeat first
    [ apply frame_bind; [|intros ?]
    | apply frame_try_except; [|intros ?]
    | solve [auto with frame] ].

Lemma frame_search taxid : frame (search taxid).
Proof. unfold search, search_body. frame_steps. Qed.

Lemma frame_fetch_loop starts max_records : ∀ acc,
  frame (fetch_loop starts max_records acc).
Proof.
  induction starts as [|start starts IH]; intros acc; simpl.
  - apply frame_ret.
  - frame_steps.
Qed.

Lemma frame_save_csv records filename : frame (save_csv records filename).
Proof. unfold save_csv. frame_steps. Qed.

Lemma frame_plot_lengths df png_filename : frame (plot_lengths df png_filename).
Proof. unfold plot_lengths, plt. frame_steps. Qed.

Lemma frame_main_after_inputs taxid lo hi : frame (main_after_inputs taxid lo hi).
Proof.
  unfold main_after_inputs. apply frame_bind; [apply frame_search|].
  intros count. case_bool_decide; [apply frame_print|].
  apply frame_bind; [apply frame_print|]. intros _.
  apply frame_bind; [apply frame_fetch_loop|]. intros raw. cbn zeta.
  destruct (filter_records raw lo hi); [apply frame_print|].
  apply frame_bind; [apply frame_save_csv|]. intros df.
  apply frame_bind; [apply frame_plot_lengths|]. intros _.
  apply frame_bind; [apply frame_print|]. intros _. apply frame_print.
Qed.

(** X22. Once the five inputs are read, every run of [main], however
    it ends, leaves [Entrez.email] and [Entrez.api_key] set to the first
    two lines typed and [Entrez.tool] set to "BioScriptEx10": only the
    constructor writes these fields.  [main] reads exactly five lines;
    what follows on standard input stays unread. *)
Theorem main_configures_entrez (w : World) (σ : State)
    (email api_key taxid smin smax : string) (rest : list string) (lo hi : Z) :
  stdin σ = email :: api_key :: taxid :: smin :: smax :: rest →
  int_of_str w smin = Ok lo →
  int_of_str w smax = Ok hi →
  entrez (main w σ).2
    = mkEntrezConfig (Some email) (Some api_key) (Some "BioScriptEx10")
  ∧ stdin (main w σ).2 = rest.
Proof.
  intros Hin Hlo Hhi. rewrite (main_inputs _ _ _ _ _ _ _ _ _ _ Hin Hlo Hhi).
  destruct (main_after_inputs taxid lo hi w _) as [r σ'] eqn:Hrun.
  cbn [snd]. by destruct (frame_main_after_inputs _ _ _ _ _ _ _ Hrun) as [-> ->].
Qed.

Lemma main_configures_entrez_witness :
  entrez (main demo_stable (initial_state (demo_inputs "5" "15" ++ ["extra"]))).2
    = mkEntrezConfig (Some "a@b.org") (Some "k") (Some "BioScriptEx10")
  ∧ stdin (main demo_stable (initial_state (demo_inputs "5" "15" ++ ["extra"]))).2
    = ["extra"].
Proof.
  apply (main_configures_entrez demo_stable
           (initial_state (demo_inputs "5" "15" ++ ["extra"]))
           "a@b.org" "k" "562" "5" "15" ["extra"] 5 15); reflexivity.
Defined.

(** ** The plot and the CSV file *)

(** X23. [plot_lengths] sorts the table returned by [save_csv] once
    more before it plots.  The rows written to the CSV file are the rows
    of that table; every run of [plot_lengths] on it opens the figure
    first and, when [plt.figure] returns, calls [plt.plot] next with the
    accessions and lengths of the re-sorted rows, and no run plots
    anything else.  The re-sorted rows are a rearrangement of the rows
    in the CSV file with the same sequence of lengths, and they are the
    very same rows in the same order when the lengths are pairwise
    distinct.  Nothing is stated about the order of the accessions of
    equal-length rows. *)
Theorem plot_rows_match_csv (w : World) (records : list SeqRecord)
    (filename png_filename : string) (σ σ1 : State) (df : DataFrame) :
  sort_contract w →
  save_csv records filename w σ = (Ok df, σ1) →
  let plotted := DataFrame_sort_length_desc w (df_rows df) in
  (∃ evs, trace (plot_lengths df png_filename w σ1).2 = trace σ1 ++ evs
     ∧ head evs = Some (EvPlt (Figure 12 6))
     ∧ (pyplot w (trace σ1) (Figure 12 6) = Ok tt →
        evs !! 1%nat
        = Some (EvPlt (Plot (row_accession <$> plotted) (row_length <$> plotted) "o")))
     ∧ (∀ xs ys marker, EvPlt (Plot xs ys marker) ∈ evs →
          xs = row_accession <$> plotted ∧ ys = row_length <$> plotted)
     ∧ ((plot_lengths df png_filename w σ1).1 = Ok tt →
          EvPlt (Plot (row_accession <$> plotted) (row_length <$> plotted) "o") ∈ evs))
  ∧ trace σ1 = trace σ ++ [EvToCsv filename table_columns (df_rows df)]
  ∧ plotted ≡ₚ df_rows df
  ∧ row_length <$> plotted = row_length <$> df_rows df
  ∧ (NoDup (row_length <$> df_rows df) → plotted = df_rows df).
Proof.
  intros Hsort Hsave plotted.
  apply save_csv_Ok_inv in Hsave as [Hdf Hσ1].
  assert (Hcols : df_columns df = table_columns) by by rewrite Hdf.
  assert (Hcsv_sorted : Sorted by_length_desc (df_rows df)).
  { rewrite Hdf. apply Hsort. }
  destruct (Hsort (df_rows df)) as [Hperm Hsorted]. fold plotted in Hperm, Hsorted.
  split_and!.
  - destruct (plot_lengths df png_filename w σ1) as [r σ2] eqn:Hrun.
    destruct (plot_lengths_first_calls _ _ _ _ _ _ Hcols Hrun)
      as (n & Htr & Hpos & Hok & Hfig).
    fold plotted in Htr.
    exists (EvPlt <$> take n (plot_calls plotted png_filename)). cbn [fst snd].
    split_and!.
    + done.
    + by apply plot_calls_head.
    + intros Hret. apply plot_calls_second. auto.
    + intros xs ys marker Hin. apply (list_elem_of_fmap_inj EvPlt) in Hin.
      apply subseteq_take in Hin. by eapply plot_calls_Plot.
    + intros Hr. rewrite (Hok Hr), take_ge by (simpl; lia).
      apply list_elem_of_fmap_2. unfold plot_calls. by right; left.
  - by rewrite Hσ1.
  - done.
  - by apply sorted_lengths_unique.
  - intros Hnd. symmetry. by apply sorted_distinct_unique.
Qed.

(** X23 at [demo_records], whose lengths are pairwise distinct. *)
Lemma plot_rows_match_csv_witness :
  sort_contract demo_stable
  ∧ ∃ df σ1,
      save_csv demo_records "taxid_562_filtered.csv" demo_stable (initial_state [])
      = (Ok df, σ1)
      ∧ row_length <$> DataFrame_sort_length_desc demo_stable (df_rows df)
        = row_length <$> df_rows df
      ∧ DataFrame_sort_length_desc demo_stable (df_rows df) = df_rows df.
Proof.
  split; [apply demo_stable_contract|]. eexists _, _. split; [reflexivity|].
  edestruct (plot_rows_match_csv demo_stable demo_records
               "taxid_562_filtered.csv" "taxid_562_plot.png" (initial_state []))
    as (_ & _ & _ & Hlen & Hsame); [apply demo_stable_contract | reflexivity |].
  split; [exact Hlen|]. apply Hsame. vm_compute.
  repeat (constructor; [intros H; elem_of_cases H|]). constructor.
Defined.
